(** * Health-Inequality dashboard: the dataset loader and the summary helper

    A shallow embedding of [load_data] and [safe_numeric_summary] of
    [health_inequality_app.py], with the pandas operations they call, and
    the properties the specification states about them.

    Layout: Python strings, results, cells and frames; the pandas operations;
    the two functions of the source; the notions the statements use; a
    concrete numeric backend with sample files; then the lemmas, the
    properties of the specification, and their instances on the sample
    files.

    What the model leaves open: the numbers ([Numeric]: how text reads as a
    number, and subtraction), the storage types of the columns of the frame
    handed to [describe] ([Dtypes], given with the frame), the file system
    and the CSV parser ([World]), and whether the calls that compute the
    KPI metrics and draw on the page return ([Rendering]). *)

From Stdlib Require Import String Ascii.
From stdpp Require Import base decidable option numbers list.

Set Default Proof Using "Type".

(* ================================================================== *)
(** ** Python strings *)

(** A Python [str] is a sequence of Unicode code points. *)
Abbreviation str := (list N).

(** An ASCII literal of the source as a [str]. *)
Definition py (s : string) : str := N_of_ascii <$> list_ascii_of_string s.

(** [s.replace(old, new)] for a one-character [old], as in
    [.str.replace("\ufeff", "", regex=False)]. *)
Definition str_replace (old : N) (new : str) (s : str) : str :=
  c ← s; if bool_decide (c = old) then new else [c].

(** [c.isspace()]: the code points Python's [str.strip()] removes. *)
Definition isspace (c : N) : bool :=
  ((9 <=? c) && (c <=? 13) || (28 <=? c) && (c <=? 32)
   || (c =? 133) || (c =? 160) || (c =? 5760)
   || (8192 <=? c) && (c <=? 8202)
   || (c =? 8232) || (c =? 8233) || (c =? 8239) || (c =? 8287)
   || (c =? 12288))%N.

Fixpoint lstrip (s : str) : str :=
  match s with
  | c :: s' => if isspace c then lstrip s' else s
  | [] => []
  end.

Definition rstrip (s : str) : str := reverse (lstrip (reverse s)).

(** [s.strip()] *)
Definition strip (s : str) : str := rstrip (lstrip s).

(** The byte-order mark, ["\ufeff"]. *)
Definition BOM : N := 65279.

(* ================================================================== *)
(** ** Exceptions and results *)

(** A raised Python exception: its class and [str(e)]. *)
Inductive exn := Exception (cls : string) (msg : str).

Definition exn_str (e : exn) : str := let 'Exception _ msg := e in msg.

Definition TypeError (msg : string) : exn := Exception "TypeError" (py msg).
Definition ValueError (msg : string) : exn := Exception "ValueError" (py msg).

(** What evaluating a Python expression or function body gives: a value,
    or an exception that propagates. *)
Inductive result (A : Type) : Type :=
| Return (a : A)
| Raise (e : exn).
Arguments Return {A} a.
Arguments Raise {A} e.

Global Instance result_ret : MRet result := @Return.
Global Instance result_bind : MBind result := λ A B f m,
  match m with Return a => f a | Raise e => Raise e end.

(** [for x in l: s = body(x, s)], stopping at the first exception. *)
Fixpoint for_each {A S : Type} (l : list A) (body : A → S → result S) (s : S)
  : result S :=
  match l with
  | [] => Return s
  | x :: l' => s' ← body x s; for_each l' body s'
  end.

(* ================================================================== *)
(** ** Cells, series and frames *)

(** The value of one cell of a frame read by [pd.read_csv]: the missing
    marker [np.nan], text, a number other than NaN, or a Boolean.  The type
    [num] of numbers is left to the numeric backend. *)
Inductive cell (num : Type) : Type :=
| NaN
| Str (s : str)
| Num (x : num)
| Bool (b : bool).
Arguments NaN {num}.
Arguments Str {num} s.
Arguments Num {num} x.
Arguments Bool {num} b.

(** A [pd.Series]: the cells of one column, in row order. *)
Abbreviation Series num := (list (cell num)).

(** A [pd.DataFrame]: the number of rows (the length of its index) and its
    labelled columns in order.  Labels may repeat. *)
Record DataFrame (num : Type) : Type := mkDataFrame {
  df_len : nat;
  df_cols : list (str * Series num)
}.
Arguments mkDataFrame {num} df_len df_cols.
Arguments df_len {num} d.
Arguments df_cols {num} d.

(** Every column of a pandas frame has one cell per row. *)
Definition wf {num} (df : DataFrame num) : Prop :=
  Forall (λ c, length c.2 = df_len df) (df_cols df).

(** What the source needs of NumPy's numbers. *)
Class Numeric (num : Type) : Type := {
  (** the number [pd.to_numeric] reads a text cell as; [None] when the text
      is not a number (or reads as NaN) *)
  parse_number : str → option num;
  (** [x - y]; [None] when the difference is NaN *)
  num_sub : num → num → option num;
  (** a Boolean promoted to a number, [True] to 1 and [False] to 0 *)
  num_of_bool : bool → num
}.

Definition isna {num} (c : cell num) : bool :=
  match c with NaN => true | _ => false end.

Definition is_Str {num} (c : cell num) : bool :=
  match c with Str _ => true | _ => false end.

Definition is_Bool {num} (c : cell num) : bool :=
  match c with Bool _ => true | _ => false end.

(** A number in Python's sense: [bool] is a subclass of [int], and pandas
    counts a Boolean column among the numeric ones. *)
Definition is_number {num} (c : cell num) : bool :=
  match c with Num _ | Bool _ => true | _ => false end.

Definition of_option {num} (o : option num) : cell num :=
  match o with Some x => Num x | None => NaN end.

(* ================================================================== *)
(** ** The pandas operations the source calls *)

Section Pandas.
Context {num : Type} `{!Numeric num}.

(** [df.columns] *)
Definition columns (df : DataFrame num) : list str := (df_cols df).*1.

(** The columns labelled [key], in order. *)
Definition labelled (key : str) (df : DataFrame num) : list (Series num) :=
  (filter (λ c : str * Series num, c.1 = key) (df_cols df)).*2.

(** [df[key]] is a Series when one column carries the label, and a frame
    of all of them when several do. *)
Inductive selection : Type :=
| OneSeries (s : Series num)
| SubFrame (cs : list (Series num)).

Definition getitem (df : DataFrame num) (key : str) : result selection :=
  match labelled key df with
  | [] => Raise (Exception "KeyError" key)
  | [s] => Return (OneSeries s)
  | cs => Return (SubFrame cs)
  end.

(** [df[key] = s]: every column labelled [key] takes the values, in place;
    a new label is added as the last column. *)
Definition setitem (df : DataFrame num) (key : str) (s : Series num)
  : DataFrame num :=
  mkDataFrame (df_len df)
    (if bool_decide (key ∈ columns df)
     then (λ c : str * Series num,
             if bool_decide (c.1 = key) then (c.1, s) else c) <$> df_cols df
     else df_cols df ++ [(key, s)]).

(** [df[key] = c] for a scalar [c], broadcast over the rows. *)
Definition setitem_scalar (df : DataFrame num) (key : str) (c : cell num)
  : DataFrame num :=
  setitem df key (replicate (df_len df) c).

(** [df.replace(to_replace, value)] for a text [to_replace]: the cells
    equal to it take [value]. *)
Definition replace_cell (to_replace : str) (value : cell num) (c : cell num)
  : cell num :=
  match c with
  | Str s => if bool_decide (s = to_replace) then value else c
  | _ => c
  end.

Definition replace (to_replace : str) (value : cell num) (df : DataFrame num)
  : DataFrame num :=
  mkDataFrame (df_len df)
    ((λ c : str * Series num, (c.1, replace_cell to_replace value <$> c.2))
       <$> df_cols df).

(** [df.columns = f(df.columns)], label by label. *)
Definition map_columns (f : str → str) (df : DataFrame num) : DataFrame num :=
  mkDataFrame (df_len df) ((λ c : str * Series num, (f c.1, c.2)) <$> df_cols df).

(** A column pandas stores with dtype [bool]: not empty, Booleans only. *)
Definition is_bool_dtype (s : Series num) : bool :=
  match s with [] => false | _ => forallb is_Bool s end.

(** [pd.to_numeric(_, errors="coerce")] on one cell of an object column. *)
Definition to_numeric_cell (c : cell num) : cell num :=
  match c with
  | NaN => NaN
  | Str s => of_option (parse_number s)
  | Num x => Num x
  | Bool b => Num (num_of_bool b)
  end.

(** [pd.to_numeric(s, errors="coerce")]: a column of numeric dtype
    ([bool] counts) is returned as it is; the cells of any other are read
    as numbers, and what does not read as one becomes NaN. *)
Definition to_numeric (s : Series num) : Series num :=
  if is_bool_dtype s then s else to_numeric_cell <$> s.

(** [pd.to_numeric] refuses an argument of two dimensions. *)
Definition pd_to_numeric (arg : selection) : result (Series num) :=
  match arg with
  | OneSeries s => Return (to_numeric s)
  | SubFrame _ =>
      Raise (TypeError "arg must be a list, tuple, 1-d array, or Series")
  end.

(** The number a cell stands for in arithmetic. *)
Definition as_number (c : cell num) : option num :=
  match c with
  | Num x => Some x
  | Bool b => Some (num_of_bool b)
  | _ => None
  end.

(** [a - b] on two cells: NaN where either is missing; Python has no
    subtraction on text. *)
Definition cell_sub (a b : cell num) : result (cell num) :=
  match a, b with
  | NaN, _ | _, NaN => Return NaN
  | Str _, _ | _, Str _ =>
      Raise (TypeError "unsupported operand type(s) for -")
  | _, _ =>
      match as_number a, as_number b with
      | Some x, Some y => Return (of_option (num_sub x y))
      | _, _ => Return NaN
      end
  end.

(** [x - y] on two columns of one frame, row by row.  NumPy has no
    subtraction on two Boolean arrays. *)
Definition series_sub (x y : Series num) : result (Series num) :=
  if is_bool_dtype x && is_bool_dtype y
  then Raise (TypeError "numpy boolean subtract, the `-` operator, is not supported")
  else mapM (λ ab, cell_sub ab.1 ab.2) (zip x y).

(** [a - b] on two selections.  With a frame on either side the
    difference is a frame, which cannot be assigned to one label;
    [load_data] never gets here, [pd.to_numeric] raises first. *)
Definition sub (a b : selection) : result (Series num) :=
  match a, b with
  | OneSeries x, OneSeries y => series_sub x y
  | _, _ =>
      Raise (ValueError "Cannot set a DataFrame with multiple columns to the single column")
  end.

End Pandas.

(* ================================================================== *)
(** ** [load_data] *)

Local Open Scope string_scope.
Local Open Scope list_scope.

Definition NUMERIC_COLS : list str := py <$> [
  "HDI rank"; "GII VALUE"; "GII RANK";
  "Maternal_mortality"; "Adolescent_birth_rate";
  "Seats_parliamentt(% held by women)";
  "F_secondary_educ"; "M_secondary_educ";
  "F_Labour_force"; "M_Labour_force"
].

(** The file system and the CSV parser, as [load_data] sees them. *)
Record World (num : Type) : Type := mkWorld {
  (** [os.path.exists(path)] *)
  os_path_exists : str → bool;
  (** [pd.read_csv(path, encoding="utf-8-sig")]: a frame or an exception *)
  pd_read_csv : str → result (DataFrame num)
}.
Arguments mkWorld {num} os_path_exists pd_read_csv.
Arguments os_path_exists {num} w path.
Arguments pd_read_csv {num} w path.

(** A call to the outside. *)
Inductive call :=
| OsPathExists (path : str)
| PdReadCsv (path : str).

(** One evaluation of a function: the calls it made to the outside, in
    order, and what it gave. *)
Record run (A : Type) : Type := mkRun {
  calls : list call;
  outcome : result A
}.
Arguments mkRun {A} calls outcome.
Arguments calls {A} r.
Arguments outcome {A} r.

Section Loader.
Context {num : Type} `{!Numeric num}.

(** [name.replace("\ufeff", "").strip()], what line 47 does to each label. *)
Definition normalize_name (name : str) : str := strip (str_replace BOM [] name).

(** The body of the loop of lines 50-52. *)
Definition convert_numeric (col : str) (df : DataFrame num)
  : result (DataFrame num) :=
  if bool_decide (col ∈ columns df) then
    arg ← getitem df col;
    s ← pd_to_numeric arg;
    Return (setitem df col s)
  else Return df.

(** One [if]/[else] of lines 55-63; the two differ in their labels only:
    [df[gap] = df[m] - df[f]] when both labels are there, [np.nan] if not. *)
Definition gap_column (gap m f : str) (df : DataFrame num)
  : result (DataFrame num) :=
  if bool_decide (f ∈ columns df) && bool_decide (m ∈ columns df) then
    a ← getitem df m;
    b ← getitem df f;
    s ← sub a b;
    Return (setitem df gap s)
  else Return (setitem_scalar df gap NaN).

(** Lines 43-63: the cleaning of the parsed frame. *)
Definition clean (df : DataFrame num) : result (DataFrame num) :=
  let df := replace (py "..") NaN df in
  let df := map_columns normalize_name df in
  df ← for_each NUMERIC_COLS convert_numeric df;
  df ← gap_column (py "Edu_gap") (py "M_secondary_educ") (py "F_secondary_educ") df;
  df ← gap_column (py "Labour_gap") (py "M_Labour_force") (py "F_Labour_force") df;
  Return df.

(** [load_data(path)], one evaluation of its body ([st.cache_data] keeps
    what it returned for later calls with the same path). *)
Definition load_data (w : World num) (path : str)
  : run (option (DataFrame num) * option str) :=
  if negb (os_path_exists w path) then
    mkRun [OsPathExists path]
      (Return (None, Some (py "File not found at: " ++ path)))
  else
    mkRun [OsPathExists path; PdReadCsv path]
      match pd_read_csv w path with
      | Raise e => Return (None, Some (py "Error reading CSV: " ++ exn_str e))
      | Return df => df' ← clean df; Return (Some df', None)
      end.

End Loader.

(* ================================================================== *)
(** ** [safe_numeric_summary] *)

(** A value of the frame [describe()] returns: a count, or the statistic
    of that name over a column.  The statistics are floating-point
    computations of pandas, which the model does not carry out: a value
    records which statistic of which column it is. *)
Inductive summary_value (num : Type) : Type :=
| Count (n : nat)
| Statistic (name : str) (s : Series num).
Arguments Count {num} n.
Arguments Statistic {num} name s.

(** A frame with labelled rows, as [describe()] returns: row labels, column
    labels, and the values row by row. *)
Record Table (num : Type) : Type := mkTable {
  tbl_index : list str;
  tbl_columns : list str;
  tbl_values : list (list (summary_value num))
}.
Arguments mkTable {num} tbl_index tbl_columns tbl_values.
Arguments tbl_index {num} t.
Arguments tbl_columns {num} t.
Arguments tbl_values {num} t.

(** The storage types of a frame.  pandas keeps one for every column,
    apart from the cells, and the frames of this model do not record it.
    [describe] reads of it whether [select_dtypes(include=np.number)] keeps
    the column: [dtypes j] is that answer for the column at position [j].
    Two columns with the same cells can differ in it: a text column whose
    cells are all missing has dtype object, the all-missing [Edu_gap] of
    line 58 has dtype float64.  (No column of this program has a datetime
    dtype, which [describe] would select as well: [pd.read_csv] is called
    without [parse_dates].) *)
Definition Dtypes : Type := nat → bool.

(** A column as pandas holds it: its label, whether its dtype is a number
    dtype, and its cells. *)
Record Column (num : Type) : Type := mkColumn {
  col_label : str;
  is_number_dtype : bool;
  col_cells : Series num
}.
Arguments mkColumn {num} col_label is_number_dtype col_cells.
Arguments col_label {num} c.
Arguments is_number_dtype {num} c.
Arguments col_cells {num} c.

(** A frame with the dtypes of its columns, as [df[cols]] hands it to
    [describe]. *)
Record TypedFrame (num : Type) : Type := mkTypedFrame {
  tf_len : nat;
  tf_cols : list (Column num)
}.
Arguments mkTypedFrame {num} tf_len tf_cols.
Arguments tf_len {num} t.
Arguments tf_cols {num} t.

Definition numeric_stats : list str :=
  py <$> ["count"; "mean"; "std"; "min"; "25%"; "50%"; "75%"; "max"].

Definition object_stats : list str :=
  py <$> ["count"; "unique"; "top"; "freq"].

Section Summary.
Context {num : Type}.

(** [s.count()]: the cells that are not missing. *)
Definition count (s : Series num) : nat :=
  length (filter (λ c, isna c = false) s).

Definition stat_value (name : str) (s : Series num) : summary_value num :=
  if bool_decide (name = py "count") then Count (count s)
  else Statistic name s.

(** The columns of a frame, each with its dtype. *)
Definition typed_columns (df : DataFrame num) (dtypes : Dtypes)
  : list (Column num) :=
  imap (λ j (c : str * Series num), mkColumn c.1 (dtypes j) c.2) (df_cols df).

(** The columns labelled [key], in order, each with its dtype. *)
Definition typed_labelled (key : str) (df : DataFrame num) (dtypes : Dtypes)
  : list (Column num) :=
  filter (λ c : Column num, col_label c = key) (typed_columns df dtypes).

(** [df[cols]] for a list of labels: for each label in turn, the columns
    that carry it, which keep their dtypes; a label the frame does not have
    is a [KeyError]. *)
Definition getitems (df : DataFrame num) (dtypes : Dtypes) (cols : list str)
  : result (TypedFrame num) :=
  cs ← mapM (λ key, match typed_labelled key df dtypes with
                    | [] => Raise (Exception "KeyError" key)
                    | ss => Return ss
                    end) cols;
  Return (mkTypedFrame (df_len df) (concat cs)).

(** [df.describe()] with its defaults: the columns of number dtype when
    there is one, each with the eight numeric statistics; all the columns
    otherwise, each with count, unique, top and freq.  One row per
    statistic, one column per described column. *)
Definition describe (t : TypedFrame num) : result (Table num) :=
  match tf_cols t with
  | [] => Raise (ValueError "Cannot describe a DataFrame without columns")
  | _ =>
      let numeric := filter (λ c : Column num, is_number_dtype c = true)
                       (tf_cols t) in
      let '(data, stats) :=
        match numeric with
        | [] => (tf_cols t, object_stats)
        | _ => (numeric, numeric_stats)
        end in
      Return (mkTable stats (col_label <$> data)
                ((λ st, (λ c : Column num, stat_value st (col_cells c)) <$> data)
                   <$> stats))
  end.

(** [t.T] *)
Definition transpose (t : Table num) : Table num :=
  mkTable (tbl_columns t) (tbl_index t)
    ((λ j, omap (λ row : list (summary_value num), row !! j) (tbl_values t))
       <$> seq 0 (length (tbl_columns t))).

(** [pd.DataFrame()] *)
Definition empty_table : Table num := mkTable [] [] [].

(** [safe_numeric_summary(df, cols)], for the frame [df] with the dtypes
    [dtypes]. *)
Definition safe_numeric_summary (df : DataFrame num) (dtypes : Dtypes)
    (cols : list str) : result (Table num) :=
  let cols := filter (λ c, c ∈ columns df) cols in
  match cols with
  | [] => Return empty_table
  | _ =>
      sel ← getitems df dtypes cols;
      d ← describe sel;
      Return (transpose d)
  end.

End Summary.

(* ================================================================== *)
(** ** The dashboard script *)

(** The module-level code of lines 76-245 as far as it depends on the data:
    the frames it derives, the branches it takes, the messages it shows and
    the charts it asks Plotly for.  Titles, headers and the fixed markdown
    text are not part of it.  The values of the KPI metrics are NumPy's and
    are not computed; that the block of the metrics, a chart or a table can
    raise, and so end the script before what follows it, is. *)

Definition DATA_PATH : str := py "gender_inequality_index.csv".
Definition TARGET_COL : str := py "GII VALUE".

(** The exception [df.dropna(subset=...)] raises when the frame lacks a
    label of [subset] (a [KeyError] that lists the missing labels), given
    the subset and the labels of the frame. *)
Class PandasErrors : Type := {
  dropna_error : list str → list str → exn
}.

(** A chart the script asks Plotly Express for, with the arguments that
    depend on the data. *)
Inductive figure (num : Type) : Type :=
| PxHistogram (data : DataFrame num) (x : str)
| PxBox (data : DataFrame num) (x y : str) (category_order : list str)
| PxScatter (data : DataFrame num) (x y : str) (color hover_name : option str).
Arguments PxHistogram {num} data x.
Arguments PxBox {num} data x y category_order.
Arguments PxScatter {num} data x y color hover_name.

(** What a block of the script hands to Streamlit: a message, a table for
    [st.dataframe] (with its number format) or a chart of Plotly Express.
    Drawing them is Streamlit's and Plotly's part and is not modelled. *)
Inductive element (num : Type) : Type :=
| StInfo (msg : str)
| StWarning (msg : str)
| StDataframe (t : Table num)
| StPlotlyChart (fig : figure num).
Arguments StInfo {num} msg.
Arguments StWarning {num} msg.
Arguments StDataframe {num} t.
Arguments StPlotlyChart {num} fig.

(** How lines 76-84 end: [st.error(error); st.stop()], or the script goes
    on with the frame. *)
Inductive startup_view (num : Type) : Type :=
| Halt (error : str)
| Proceed (df : DataFrame num).
Arguments Halt {num} error.
Arguments Proceed {num} df.

(** The calls whose outcome is the libraries': each returns, or raises an
    exception that nothing in the script catches.
    - [kpi_metrics df_gii]: lines 115-128, the four metrics computed from
      [df_gii] ([nunique], [mean], [min], [max] and their formatting);
    - [plotly_chart fig]: the call of Plotly Express that makes the chart,
      the update of its traces and [st.plotly_chart];
    - [st_dataframe t]: [st.dataframe(t.style.format("{:.3f}"))]. *)
Class Rendering (num : Type) : Type := {
  kpi_metrics : DataFrame num → result unit;
  plotly_chart : figure num → result unit;
  st_dataframe : Table num → result unit
}.

(** [l[mask]] for a Boolean mask: the entries at the places the mask holds. *)
Fixpoint compress {A : Type} (mask : list bool) (l : list A) : list A :=
  match mask, l with
  | b :: mask', x :: l' => if b then x :: compress mask' l' else compress mask' l'
  | _, _ => []
  end.

(** [for x in l if test(x)], stopping at the first exception. *)
Fixpoint filter_each {A : Type} (test : A → result bool) (l : list A)
  : result (list A) :=
  match l with
  | [] => Return []
  | x :: l' =>
      b ← test x; k ← filter_each test l';
      Return (if (b : bool) then x :: k else k)
  end.

Section Dashboard.
Context {num : Type} `{!Numeric num} `{!PandasErrors} `{!Rendering num}.

(** [df.empty]: no row or no column. *)
Definition df_empty (df : DataFrame num) : bool :=
  bool_decide (df_len df = 0) || bool_decide (df_cols df = []).

(** [s.notna()] *)
Definition notna_mask (s : Series num) : list bool := (λ c, negb (isna c)) <$> s.

(** [notna(cs).all(axis=1)] over [n] rows: the rows in which no column of
    [cs] has the missing marker. *)
Definition complete_rows (n : nat) (cs : list (Series num)) : list bool :=
  foldr (λ s mask, zip_with andb (notna_mask s) mask) (replicate n true) cs.

(** [df.dropna(subset=subset)]: the rows in which every column carrying a
    label of [subset] is not missing, all columns kept. *)
Definition dropna (subset : list str) (df : DataFrame num)
  : result (DataFrame num) :=
  if forallb (λ k, bool_decide (k ∈ columns df)) subset then
    let mask := complete_rows (df_len df) (k ← subset; labelled k df) in
    Return (mkDataFrame (length (compress mask (seq 0 (df_len df))))
              ((λ c : str * Series num, (c.1, compress mask c.2)) <$> df_cols df))
  else Raise (dropna_error subset (columns df)).

(** [if load_error:], the truth value of [None] or a string. *)
Definition truthy (o : option str) : bool :=
  match o with Some (_ :: _) => true | _ => false end.

(** Lines 76-84. *)
Definition startup (w : World num) : result (startup_view num) :=
  '(df, load_error) ← outcome (load_data w DATA_PATH);
  if truthy load_error then Return (Halt (default [] load_error))
  else
    match df with
    | None => Return (Halt (py "Dataset is empty or could not be loaded."))
    | Some df =>
        if df_empty df
        then Return (Halt (py "Dataset is empty or could not be loaded."))
        else Return (Proceed df)
    end.

(** Line 113: [df_gii]. *)
Definition kpi_frame (df : DataFrame num) : result (DataFrame num) :=
  dropna [TARGET_COL] df.

(** Lines 155-162. *)
Definition summary_cols : list str := py <$> [
  "HDI rank"; "GII VALUE"; "GII RANK";
  "Maternal_mortality"; "Adolescent_birth_rate";
  "Seats_parliamentt(% held by women)";
  "F_secondary_educ"; "M_secondary_educ";
  "F_Labour_force"; "M_Labour_force";
  "Edu_gap"; "Labour_gap"
].

(** [desc.empty] *)
Definition table_empty (t : Table num) : bool :=
  bool_decide (tbl_index t = []) || bool_decide (tbl_columns t = []).

(** Lines 140-169, the Distribution tab, for the loaded frame [df] with
    the dtypes [dtypes] and the KPI frame [df_gii]: what it has put on the
    page when it returns.  The summary is computed once the histogram is
    drawn, and the table shown once the summary is computed; an exception
    of one of the calls ends the block there. *)
Definition distribution_view (df : DataFrame num) (dtypes : Dtypes)
    (df_gii : DataFrame num) : result (list (element num)) :=
  if bool_decide (TARGET_COL ∈ columns df_gii) then
    _ ← plotly_chart (PxHistogram df_gii TARGET_COL);
    desc ← safe_numeric_summary df dtypes summary_cols;
    if negb (table_empty desc) then
      _ ← st_dataframe desc;
      Return [StPlotlyChart (PxHistogram df_gii TARGET_COL); StDataframe desc]
    else
      Return [StPlotlyChart (PxHistogram df_gii TARGET_COL);
              StInfo (py "No numeric columns available for summary.")]
  else
    Return [StWarning (py "GII VALUE column is missing; cannot show distribution.")].

(** Lines 113-169: the KPI frame, the KPI metrics, then the Distribution
    tab. *)
Definition distribution_tab (df : DataFrame num) (dtypes : Dtypes)
  : result (list (element num)) :=
  df_gii ← kpi_frame df;
  _ ← kpi_metrics df_gii;
  distribution_view df dtypes df_gii.

(** [o in df[key].unique()]: [o] is one of the values of the column.  A
    frame of several columns has no [unique]. *)
Definition in_unique (sel : @selection num) (o : str) : result bool :=
  match sel with
  | OneSeries s =>
      Return (existsb (λ c, match c with
                            | Str t => bool_decide (t = o)
                            | _ => false
                            end) s)
  | SubFrame _ =>
      Raise (Exception "AttributeError"
               (py "'DataFrame' object has no attribute 'unique'"))
  end.

(** Lines 172-194, the tab by human development group. *)
Definition hd_view (df : DataFrame num) : result (list (element num)) :=
  if bool_decide (py "HUMAN DEVELOPMENT" ∈ columns df)
     && bool_decide (TARGET_COL ∈ columns df) then
    df_box ← dropna [py "HUMAN DEVELOPMENT"; TARGET_COL] df;
    if df_empty df_box then
      Return [StInfo (py "No complete data for HUMAN DEVELOPMENT and GII VALUE.")]
    else
      order ← filter_each
                 (λ o, sel ← getitem df_box (py "HUMAN DEVELOPMENT");
                       in_unique sel o)
                 (py <$> ["VERY HIGH"; "HIGH"; "MEDIUM"; "LOW"]);
      Return [StPlotlyChart
                (PxBox df_box (py "HUMAN DEVELOPMENT") TARGET_COL order)]
  else
    Return [StInfo (py "HUMAN DEVELOPMENT or GII VALUE column not found in the dataset.")].

(** Lines 202-211. *)
Definition numeric_options (df : DataFrame num) : list str :=
  filter (λ c, c ∈ columns df) (py <$> [
    "Maternal_mortality"; "Adolescent_birth_rate";
    "Seats_parliamentt(% held by women)";
    "F_secondary_educ"; "M_secondary_educ";
    "F_Labour_force"; "M_Labour_force";
    "Edu_gap"; "Labour_gap"
  ]).

(** Line 222: the options of the colour selector. *)
Definition color_options (df : DataFrame num) : list str :=
  if bool_decide (py "HUMAN DEVELOPMENT" ∈ columns df)
  then py <$> ["None"; "HUMAN DEVELOPMENT"; "Country"]
  else py <$> ["None"; "Country"].

(** Lines 226-228. *)
Definition subset_cols (df : DataFrame num) (x_var color_by : str) : list str :=
  [TARGET_COL; x_var]
  ++ (if negb (bool_decide (color_by = py "None"))
         && bool_decide (color_by ∈ columns df)
      then [color_by] else []).

(** Lines 197-245, the Relationships tab, for the selections [x_var] and
    [color_by] the two select boxes return. *)
Definition relationships_view (df : DataFrame num) (x_var color_by : str)
  : result (list (element num)) :=
  match numeric_options df with
  | [] =>
      Return [StInfo (py "No numeric driver columns available for relationship plots.")]
  | _ =>
      df_scatter ← dropna (subset_cols df x_var color_by) df;
      if df_empty df_scatter then
        Return [StInfo (py "No complete rows available for the selected variables.")]
      else
        Return [StPlotlyChart
                  (PxScatter df_scatter x_var TARGET_COL
                     (if bool_decide (color_by ∈ columns df_scatter)
                      then Some color_by else None)
                     (if bool_decide (py "Country" ∈ columns df_scatter)
                      then Some (py "Country") else None))]
  end.

End Dashboard.

(* ================================================================== *)
(** ** Notions the statements and the proofs use *)

(** The derived columns of lines 55-63, each with the two columns it is
    the difference of: [(gap, m, f)] for [df[gap] = df[m] - df[f]]. *)
Definition GAPS : list (str * str * str) := [
  (py "Edu_gap", py "M_secondary_educ", py "F_secondary_educ");
  (py "Labour_gap", py "M_Labour_force", py "F_Labour_force")
].

(** The labels of the derived columns. *)
Definition GAP_COLS : list str := [py "Edu_gap"; py "Labour_gap"].

Section Notions.
Context {num : Type} `{!Numeric num}.
Implicit Types (d df : DataFrame num) (s : Series num).
Implicit Types (c : str * Series num) (L : list str).

(** The value of [a - b] where Python defines it. *)
Definition cell_minus (a b : cell num) : cell num :=
  match as_number a, as_number b with
  | Some p, Some q => of_option (num_sub p q)
  | _, _ => NaN
  end.

(** The loop of lines 50-52 in one step: the columns whose label is in
    [L] are converted. *)
Definition conv_in L c : str * Series num :=
  if bool_decide (c.1 ∈ L) then (c.1, to_numeric c.2) else c.

(** No label of [L] is carried by two columns. *)
Definition unique_labels L d : bool :=
  forallb (λ k, bool_decide (length (labelled k d) ≤ 1)) L.

(** A column after lines 43-52: the placeholder replaced, the label
    normalised, and the values converted if the label is a numeric one. *)
Definition cleaned_col c : str * Series num :=
  conv_in NUMERIC_COLS
    (normalize_name c.1, replace_cell (py "..") NaN <$> c.2).

(** The frame after lines 43-52, when the loop does not raise. *)
Definition converted df : DataFrame num :=
  mkDataFrame (df_len df) (cleaned_col <$> df_cols df).

(** What one [if]/[else] of lines 55-63 assigns to its gap label. *)
Definition gap_spec (m f : str) d s : Prop :=
  if bool_decide (f ∈ columns d) && bool_decide (m ∈ columns d)
  then ∃ x y, labelled m d = [x] ∧ labelled f d = [y]
              ∧ series_sub x y = Return s
  else s = replicate (df_len d) NaN.

(** No numeric label is carried by two columns once the labels are
    normalised. *)
Definition numeric_labels_unique df : Prop :=
  ∀ k, k ∈ NUMERIC_COLS →
       length (filter (λ n, n = k) (normalize_name <$> columns df)) ≤ 1.

(** Columns [m] and [f] (normalised labels) that pandas both stores as
    Booleans. *)
Definition boolean_pair (m f : str) df : Prop :=
  ∃ cm cf, cm ∈ df_cols df ∧ cf ∈ df_cols df
           ∧ normalize_name cm.1 = m ∧ normalize_name cf.1 = f
           ∧ is_bool_dtype cm.2 = true ∧ is_bool_dtype cf.2 = true.

End Notions.

Section DashboardNotions.
Context {num : Type} `{!Numeric num} `{!PandasErrors}.
Implicit Types (df : DataFrame num) (subset : list str).

(** No column carrying a label of [subset] is missing in row [i]. *)
Definition complete_row df subset (i : nat) : Prop :=
  ∀ k s, k ∈ subset → s ∈ labelled k df →
         ∃ c, s !! i = Some c ∧ isna c = false.

(** The frame [df.dropna(subset=subset)] gives when it gives one. *)
Definition dropped subset df : DataFrame num :=
  let mask := complete_rows (df_len df) (k ← subset; labelled k df) in
  mkDataFrame (length (compress mask (seq 0 (df_len df))))
    ((λ c : str * Series num, (c.1, compress mask c.2)) <$> df_cols df).

End DashboardNotions.

Section SummaryNotions.
Context {num : Type}.
Implicit Types (df : DataFrame num) (dtypes : Dtypes) (cols : list str).

(** The columns of [df[cols]] once [cols] is filtered: for each label of
    [cols] the frame has, in turn, the columns that carry it. *)
Definition selected df dtypes cols : list (Column num) :=
  concat ((λ key, typed_labelled key df dtypes)
            <$> filter (λ c, c ∈ columns df) cols).

(** One row per described column, with the statistics in order. *)
Definition summary_of (stats : list str) (data : list (Column num))
  : Table num :=
  mkTable (col_label <$> data) stats
    ((λ c : Column num, (λ st, stat_value st (col_cells c)) <$> stats) <$> data).

End SummaryNotions.

(* ================================================================== *)
(** ** A concrete backend: integers *)

(** Numbers as integers, text read as an optionally signed decimal; enough
    to run the loader on sample files. *)
Fixpoint parse_digits (s : str) (acc : Z) : option Z :=
  match s with
  | [] => Some acc
  | c :: s' =>
      if ((48 <=? c) && (c <=? 57))%N
      then parse_digits s' (10 * acc + Z.of_N (c - 48))%Z
      else None
  end.

Definition parse_Z (s : str) : option Z :=
  match s with
  | [] => None
  | 45%N :: (_ :: _) as d => Z.opp <$> parse_digits d 0
  | _ => parse_digits s 0
  end.

Global Instance Z_numeric : Numeric Z := {|
  parse_number := parse_Z;
  num_sub := λ x y, Some (x - y)%Z;
  num_of_bool := Z.b2z
|}.

(** The dtypes of a frame whose first [n] columns hold text (dtype object)
    and whose other columns hold numbers (dtype int64 or float64). *)
Definition text_then_numbers (n : nat) : Dtypes := λ j, bool_decide (n ≤ j).

(** Calls that all return, as they do on the sample file [groups] below. *)
Global Instance sample_rendering : Rendering Z := {|
  kpi_metrics _ := Return ();
  plotly_chart _ := Return ();
  st_dataframe _ := Return ()
|}.

(** A [KeyError] whose message is the missing labels, one after the other
    (pandas prints them as a list). *)
Global Instance sample_errors : PandasErrors := {|
  dropna_error subset labels :=
    Exception "KeyError" (mjoin (filter (λ k, k ∉ labels) subset))
|}.

(** A world with one file, [gii.csv], that parses to [df]. *)
Definition one_file (df : DataFrame Z) : World Z :=
  mkWorld (λ p, bool_decide (p = py "gii.csv")) (λ _, Return df).

(** The spec's example row: Ngoza, 40 and 55.  A second row has the
    placeholder in two columns, which [pd.read_csv] therefore keeps as
    text. *)
Definition ngoza : DataFrame Z :=
  mkDataFrame 2 [
    (py "Country", [Str (py "Ngoza"); Str (py "..")]);
    (py "F_secondary_educ", [Str (py "40"); Str (py "..")]);
    (py "M_secondary_educ", [Num 55; Num 60]);
    (py "GII VALUE", [Str (py "unknown"); Str (py "7")])
  ]%Z.

(** What [load_data] returns for it. *)
Definition ngoza_cleaned : DataFrame Z :=
  mkDataFrame 2 [
    (py "Country", [Str (py "Ngoza"); NaN]);
    (py "F_secondary_educ", [Num 40; NaN]);
    (py "M_secondary_educ", [Num 55; Num 60]);
    (py "GII VALUE", [NaN; Num 7]);
    (py "Edu_gap", [Num 15; NaN]);
    (py "Labour_gap", [NaN; NaN])
  ]%Z.

(** A file whose header reads [GII VALUE, GII VALUE]: the second label has
    a leading blank, so the parser takes the two for different labels. *)
Definition repeated_label : DataFrame Z :=
  mkDataFrame 1 [
    (py "GII VALUE", [Num 1]);
    (py " GII VALUE", [Num 2])
  ]%Z.

(** A file that already has a column [Edu_gap], holding the placeholder. *)
Definition stale_gap : DataFrame Z :=
  mkDataFrame 1 [
    (py "Edu_gap", [Str (py "..")]);
    (py "F_secondary_educ", [Num 40]);
    (py "M_secondary_educ", [Num 55])
  ]%Z.

(** What [load_data] returns for it. *)
Definition stale_gap_cleaned : DataFrame Z :=
  mkDataFrame 1 [
    (py "Edu_gap", [Num 15]);
    (py "F_secondary_educ", [Num 40]);
    (py "M_secondary_educ", [Num 55]);
    (py "Labour_gap", [NaN])
  ]%Z.

(** A loaded frame whose text column [Country] has only missing cells,
    as has its [Edu_gap]: the first is of dtype object, the second of dtype
    float64. *)
Definition unnamed_countries : DataFrame Z :=
  mkDataFrame 2 [
    (py "Country", [NaN; NaN]);
    (py "GII VALUE", [Num 1; Num 2]);
    (py "Edu_gap", [NaN; NaN]);
    (py "Labour_gap", [NaN; NaN])
  ]%Z.

(** A world with the file the script reads,
    [gender_inequality_index.csv], that parses to [df]. *)
Definition dataset (df : DataFrame Z) : World Z :=
  mkWorld (λ p, bool_decide (p = DATA_PATH)) (λ _, Return df).

(** A file with the human development groups.  Niger has the placeholder
    for its index and Chad for its group. *)
Definition groups : DataFrame Z :=
  mkDataFrame 4 [
    (py "Country", [Str (py "Norway"); Str (py "Niger");
                    Str (py "India"); Str (py "Chad")]);
    (py "HUMAN DEVELOPMENT", [Str (py "VERY HIGH"); Str (py "LOW");
                              Str (py "MEDIUM"); Str (py "..")]);
    (py "GII VALUE", [Str (py "16"); Str (py "..");
                      Str (py "490"); Str (py "710")]);
    (py "Maternal_mortality", [Num 2; Num 509; Num 145; Num 1140])
  ]%Z.

(** What [load_data] returns for it. *)
Definition groups_cleaned : DataFrame Z :=
  mkDataFrame 4 [
    (py "Country", [Str (py "Norway"); Str (py "Niger");
                    Str (py "India"); Str (py "Chad")]);
    (py "HUMAN DEVELOPMENT", [Str (py "VERY HIGH"); Str (py "LOW");
                              Str (py "MEDIUM"); NaN]);
    (py "GII VALUE", [Num 16; NaN; Num 490; Num 710]);
    (py "Maternal_mortality", [Num 2; Num 509; Num 145; Num 1140]);
    (py "Edu_gap", [NaN; NaN; NaN; NaN]);
    (py "Labour_gap", [NaN; NaN; NaN; NaN])
  ]%Z.

(** Its dtypes: two text columns, then numbers. *)
Definition groups_dtypes : Dtypes := text_then_numbers 2.

(** Its rows with an index, the KPI frame: Norway, India and Chad. *)
Definition groups_gii : DataFrame Z :=
  mkDataFrame 3 [
    (py "Country", [Str (py "Norway"); Str (py "India"); Str (py "Chad")]);
    (py "HUMAN DEVELOPMENT", [Str (py "VERY HIGH"); Str (py "MEDIUM"); NaN]);
    (py "GII VALUE", [Num 16; Num 490; Num 710]);
    (py "Maternal_mortality", [Num 2; Num 145; Num 1140]);
    (py "Edu_gap", [NaN; NaN; NaN]);
    (py "Labour_gap", [NaN; NaN; NaN])
  ]%Z.

(** Its summary: one row for each of its four number columns. *)
Definition groups_summary : Table Z :=
  summary_of numeric_stats [
    mkColumn (py "GII VALUE") true [Num 16; NaN; Num 490; Num 710];
    mkColumn (py "Maternal_mortality") true [Num 2; Num 509; Num 145; Num 1140];
    mkColumn (py "Edu_gap") true [NaN; NaN; NaN; NaN];
    mkColumn (py "Labour_gap") true [NaN; NaN; NaN; NaN]
  ]%Z.

(** What lines 113-169 put on the page for it. *)
Definition groups_distribution : list (element Z) :=
  [StPlotlyChart (PxHistogram groups_gii TARGET_COL); StDataframe groups_summary].

(** Its rows with a group and an index: Norway and India. *)
Definition groups_complete : DataFrame Z :=
  mkDataFrame 2 [
    (py "Country", [Str (py "Norway"); Str (py "India")]);
    (py "HUMAN DEVELOPMENT", [Str (py "VERY HIGH"); Str (py "MEDIUM")]);
    (py "GII VALUE", [Num 16; Num 490]);
    (py "Maternal_mortality", [Num 2; Num 145]);
    (py "Edu_gap", [NaN; NaN]);
    (py "Labour_gap", [NaN; NaN])
  ]%Z.

(** A file whose header reads [HUMAN DEVELOPMENT, HUMAN DEVELOPMENT,
    GII VALUE]: the second label has a leading blank. *)
Definition repeated_group_file : DataFrame Z :=
  mkDataFrame 1 [
    (py "HUMAN DEVELOPMENT", [Str (py "LOW")]);
    (py " HUMAN DEVELOPMENT", [Str (py "LOW")]);
    (py "GII VALUE", [Num 612])
  ]%Z.

(** What [load_data] returns for it: two columns carry the label
    [HUMAN DEVELOPMENT]. *)
Definition repeated_group : DataFrame Z :=
  mkDataFrame 1 [
    (py "HUMAN DEVELOPMENT", [Str (py "LOW")]);
    (py "HUMAN DEVELOPMENT", [Str (py "LOW")]);
    (py "GII VALUE", [Num 612]);
    (py "Edu_gap", [NaN]);
    (py "Labour_gap", [NaN])
  ]%Z.

(* ================================================================== *)
(** * Lemmas *)

(** A closed decidable fact (a label in or out of a list of labels), by
    evaluation. *)
Ltac by_evaluation :=
  first [ apply (bool_decide_eq_true_1 _) | apply (bool_decide_eq_false_1 _) ];
  by vm_compute.

(** ** Results *)

Lemma bind_Return {A B} (f : A → result B) (m : result A) (b : B) :
  m ≫= f = Return b ↔ ∃ a, m = Return a ∧ f a = Return b.
Proof.
  destruct m as [a|e]; simpl; split.
  - intros Hf. by exists a.
  - by intros (a' & [= <-] & Hf).
  - done.
  - by intros (a' & [=] & _).
Qed.

(** ** Header normalisation *)

Lemma lstrip_idem s : lstrip (lstrip s) = lstrip s.
Proof.
  induction s as [|c s IH]; [done|]. simpl.
  destruct (isspace c) eqn:Hc; [done|]. simpl. by rewrite Hc.
Qed.

Lemma lstrip_subseteq s : lstrip s ⊆ s.
Proof.
  induction s as [|c s IH]; [done|]. simpl.
  destruct (isspace c); [|done]. intros x Hx. right. by apply IH.
Qed.

Lemma lstrip_snoc s c :
  lstrip (s ++ [c]) =
  match lstrip s with
  | [] => if isspace c then [] else [c]
  | t => t ++ [c]
  end.
Proof.
  induction s as [|d s IH]; simpl; [done|].
  destruct (isspace d); [done|]. done.
Qed.

Lemma rstrip_cons c s :
  rstrip (c :: s) =
  match rstrip s with
  | [] => if isspace c then [] else [c]
  | t => c :: t
  end.
Proof.
  unfold rstrip. rewrite reverse_cons, lstrip_snoc.
  destruct (lstrip (reverse s)) as [|d t] eqn:Ht.
  - rewrite reverse_nil. by destruct (isspace c).
  - rewrite reverse_app. simpl.
    destruct (reverse (d :: t)) eqn:Hr; [|done].
    apply (f_equal length) in Hr. rewrite length_reverse in Hr. done.
Qed.

Lemma rstrip_idem s : rstrip (rstrip s) = rstrip s.
Proof. unfold rstrip. by rewrite reverse_involutive, lstrip_idem. Qed.

Lemma rstrip_subseteq s : rstrip s ⊆ s.
Proof.
  unfold rstrip. intros c Hc. rewrite elem_of_reverse in Hc.
  apply lstrip_subseteq in Hc. by rewrite elem_of_reverse in Hc.
Qed.

Lemma lstrip_length s : length (lstrip s) ≤ length s.
Proof.
  induction s as [|d s IH]; simpl; [done|].
  destruct (isspace d); simpl; lia.
Qed.

(** Trimming the right end leaves a trimmed left end trimmed. *)
Lemma lstrip_rstrip s : lstrip s = s → lstrip (rstrip s) = rstrip s.
Proof.
  destruct s as [|c s]; [done|]. simpl.
  destruct (isspace c) eqn:Hc.
  - intros Hs. pose proof (lstrip_length s) as Hlen.
    rewrite Hs in Hlen. simpl in Hlen. lia.
  - intros _. rewrite rstrip_cons.
    destruct (rstrip s); rewrite ?Hc; simpl; by rewrite ?Hc.
Qed.

Lemma strip_idem s : strip (strip s) = strip s.
Proof.
  unfold strip. rewrite (lstrip_rstrip (lstrip s)) by apply lstrip_idem.
  apply rstrip_idem.
Qed.

Lemma strip_subseteq s : strip s ⊆ s.
Proof.
  unfold strip. etrans; [apply rstrip_subseteq|apply lstrip_subseteq].
Qed.

Lemma str_replace_nil_notin old s : old ∉ str_replace old [] s.
Proof.
  unfold str_replace. intros Hin. apply list_elem_of_bind in Hin.
  destruct Hin as (c & Hc & _). case_bool_decide as Hd.
  - by apply elem_of_nil in Hc.
  - apply list_elem_of_singleton in Hc. by subst.
Qed.

Lemma str_replace_nil_id old s : old ∉ s → str_replace old [] s = s.
Proof.
  unfold str_replace. induction s as [|c s IH]; [done|].
  intros Hin. apply not_elem_of_cons in Hin as [Hc Hs].
  rewrite bind_cons, bool_decide_eq_false_2 by done.
  simpl. f_equal. by apply IH.
Qed.

(** A normalised label is left as it is by a second normalisation. *)
Lemma normalize_name_idem name :
  normalize_name (normalize_name name) = normalize_name name.
Proof.
  unfold normalize_name.
  rewrite (str_replace_nil_id BOM (strip _)); [apply strip_idem|].
  intros Hin. apply strip_subseteq in Hin.
  by apply str_replace_nil_notin in Hin.
Qed.

(** ** Cells and series *)

Section SeriesLemmas.
Context {num : Type} `{!Numeric num}.
Implicit Types (c a b : cell num) (s x y : Series num).

Lemma replace_cell_idem r c :
  replace_cell r NaN (replace_cell r NaN c) = replace_cell r NaN c.
Proof.
  destruct c as [|t| |]; simpl; try done.
  case_bool_decide as Ht; simpl; [done|]. by rewrite bool_decide_eq_false_2.
Qed.

Lemma replace_cell_not_Str r c : is_Str c = false → replace_cell r NaN c = c.
Proof. by destruct c. Qed.

Lemma to_numeric_cell_not_Str c : is_Str (to_numeric_cell c) = false.
Proof. destruct c as [|t| |]; simpl; try done. by destruct (parse_number t). Qed.

Lemma to_numeric_cell_not_Bool c : is_Bool (to_numeric_cell c) = false.
Proof. destruct c as [|t| |]; simpl; try done. by destruct (parse_number t). Qed.

Lemma to_numeric_cell_idem c :
  to_numeric_cell (to_numeric_cell c) = to_numeric_cell c.
Proof. destruct c as [|t| |]; simpl; try done. by destruct (parse_number t). Qed.

Lemma is_bool_dtype_Forall s : is_bool_dtype s = true → Forall (λ c, is_Bool c = true) s.
Proof.
  destruct s as [|c s]; [done|]. unfold is_bool_dtype.
  intros Hs. apply List.Forall_forall. intros d Hd.
  exact (proj1 (forallb_forall is_Bool (c :: s)) Hs d Hd).
Qed.

Lemma is_bool_dtype_fmap_to_numeric_cell s :
  is_bool_dtype (to_numeric_cell <$> s) = false.
Proof.
  destruct s as [|c s]; [done|]. simpl.
  by rewrite to_numeric_cell_not_Bool.
Qed.

Lemma to_numeric_idem s : to_numeric (to_numeric s) = to_numeric s.
Proof.
  unfold to_numeric. destruct (is_bool_dtype s) eqn:Hs; [by rewrite Hs|].
  rewrite is_bool_dtype_fmap_to_numeric_cell, <-list_fmap_compose.
  apply list_fmap_ext. intros ? c _. apply to_numeric_cell_idem.
Qed.

Lemma length_to_numeric s : length (to_numeric s) = length s.
Proof. unfold to_numeric. destruct (is_bool_dtype s); [done|apply length_fmap]. Qed.

(** After [pd.to_numeric] no cell of the column is text. *)
Lemma to_numeric_not_Str s : Forall (λ c, is_Str c = false) (to_numeric s).
Proof.
  unfold to_numeric. destruct (is_bool_dtype s) eqn:Hs.
  - apply is_bool_dtype_Forall in Hs.
    eapply Forall_impl; [exact Hs|]. by intros [].
  - apply Forall_fmap, Forall_true. intros c. apply to_numeric_cell_not_Str.
Qed.

(** A cell of the converted column is the cell it was, or that cell read
    as a number. *)
Lemma to_numeric_lookup s i c :
  s !! i = Some c →
  to_numeric s !! i = Some c ∧ is_Bool c = true
  ∨ to_numeric s !! i = Some (to_numeric_cell c).
Proof.
  intros Hi. unfold to_numeric. destruct (is_bool_dtype s) eqn:Hs.
  - left. split; [done|]. apply is_bool_dtype_Forall in Hs.
    by eapply (Forall_lookup_1 _ _ _ _ Hs).
  - right. by rewrite list_lookup_fmap, Hi.
Qed.

Lemma to_numeric_lookup_NaN s i : s !! i = Some NaN → to_numeric s !! i = Some NaN.
Proof. intros Hi. by destruct (to_numeric_lookup s i NaN Hi) as [[? ?]|?]. Qed.

Lemma cell_sub_minus a b :
  is_Str a = false → is_Str b = false → cell_sub a b = Return (cell_minus a b).
Proof. by destruct a, b. Qed.

Lemma mapM_cell_sub x y :
  Forall (λ c, is_Str c = false) x → Forall (λ c, is_Str c = false) y →
  mapM (λ ab : cell num * cell num, cell_sub ab.1 ab.2) (zip x y)
  = Return (zip_with cell_minus x y).
Proof.
  intros Hx. revert y. induction Hx as [|a x Ha Hx IH]; intros y Hy; [done|].
  destruct Hy as [|b y Hb Hy]; [done|]. simpl.
  rewrite cell_sub_minus by done. simpl. by rewrite IH.
Qed.

(** What [x - y] is on two converted columns. *)
Lemma series_sub_converted x y :
  Forall (λ c, is_Str c = false) x → Forall (λ c, is_Str c = false) y →
  series_sub x y =
  if is_bool_dtype x && is_bool_dtype y
  then Raise (TypeError "numpy boolean subtract, the `-` operator, is not supported")
  else Return (zip_with cell_minus x y).
Proof.
  intros Hx Hy. unfold series_sub.
  destruct (is_bool_dtype x && is_bool_dtype y); [done|].
  by apply mapM_cell_sub.
Qed.

End SeriesLemmas.

(** ** Frames *)

Section FrameLemmas.
Context {num : Type} `{!Numeric num}.
Implicit Types (d : DataFrame num) (k g : str) (s : Series num).
Implicit Types (c : str * Series num).

Lemma df_eq d1 d2 :
  df_len d1 = df_len d2 → df_cols d1 = df_cols d2 → d1 = d2.
Proof. destruct d1, d2; simpl; by intros -> ->. Qed.

Lemma elem_of_labelled s k d : s ∈ labelled k d ↔ (k, s) ∈ df_cols d.
Proof.
  unfold labelled. rewrite list_elem_of_fmap. split.
  - intros ([k' s'] & -> & Hin). apply list_elem_of_filter in Hin as [Hk Hin].
    simpl in *. by subst.
  - intros Hin. exists (k, s). split; [done|]. by apply list_elem_of_filter.
Qed.

Lemma labelled_nil k d : labelled k d = [] ↔ k ∉ columns d.
Proof.
  unfold columns. split.
  - intros Hnil Hin. apply list_elem_of_fmap in Hin as ([k' s] & -> & Hin).
    simpl in *. apply (elem_of_labelled s k' d) in Hin. rewrite Hnil in Hin.
    by apply elem_of_nil in Hin.
  - intros Hnot. destruct (labelled k d) as [|s l] eqn:Hl; [done|].
    exfalso. apply Hnot. apply list_elem_of_fmap. exists (k, s).
    split; [done|]. apply elem_of_labelled. rewrite Hl. by left.
Qed.

(** How many columns carry a label depends on the labels alone. *)
Lemma length_labelled k d :
  length (labelled k d) = length (filter (λ n, n = k) (columns d)).
Proof.
  unfold labelled, columns. rewrite length_fmap.
  induction (df_cols d) as [|c l IH]; [done|].
  rewrite fmap_cons, !filter_cons. simpl.
  destruct (decide (c.1 = k)); simpl; by rewrite IH.
Qed.

Lemma labelled_singleton k d x c :
  labelled k d = [x] → c ∈ df_cols d → c.1 = k → c.2 = x.
Proof.
  intros Hl Hin Hk. destruct c as [k' s]. simpl in *. subst k'.
  apply elem_of_labelled in Hin. rewrite Hl in Hin.
  by apply list_elem_of_singleton in Hin.
Qed.

Lemma df_len_setitem d g s : df_len (setitem d g s) = df_len d.
Proof. done. Qed.

Lemma columns_setitem d g s :
  columns (setitem d g s) =
  if bool_decide (g ∈ columns d) then columns d else columns d ++ [g].
Proof.
  unfold columns at 1, setitem. simpl. case_bool_decide.
  - rewrite <-list_fmap_compose. apply list_fmap_ext.
    intros ? c _. simpl. by case_bool_decide.
  - by rewrite fmap_app.
Qed.

Lemma elem_of_columns_setitem k d g s :
  k ∈ columns (setitem d g s) ↔ k ∈ columns d ∨ k = g.
Proof.
  rewrite columns_setitem. case_bool_decide as Hg.
  - split; [by left|]. intros [?| ->]; done.
  - rewrite elem_of_app, list_elem_of_singleton. done.
Qed.

Lemma elem_of_cols_setitem c d g s :
  c ∈ df_cols (setitem d g s) →
  c.1 = g ∧ c.2 = s ∨ c.1 ≠ g ∧ c ∈ df_cols d.
Proof.
  unfold setitem. simpl. case_bool_decide as Hg.
  - intros Hin. apply list_elem_of_fmap in Hin as (c0 & -> & Hin).
    case_bool_decide; [by left|by right].
  - intros Hin. apply elem_of_app in Hin as [Hin|Hin].
    + destruct (decide (c.1 = g)) as [<-|Hne]; [|by right].
      exfalso. apply Hg. unfold columns. by apply list_elem_of_fmap_2.
    + apply list_elem_of_singleton in Hin as ->. by left.
Qed.

(** The columns that were there keep their places. *)
Lemma setitem_lookup d g s j c :
  df_cols d !! j = Some c →
  df_cols (setitem d g s) !! j
  = Some (if bool_decide (c.1 = g) then (c.1, s) else c).
Proof.
  intros Hj. unfold setitem. simpl. case_bool_decide as Hg.
  - by rewrite list_lookup_fmap, Hj.
  - rewrite lookup_app_l by by eapply lookup_lt_Some.
    rewrite Hj. f_equal. rewrite bool_decide_eq_false_2; [done|].
    intros <-. apply Hg. unfold columns. apply list_elem_of_fmap_2.
    by eapply list_elem_of_lookup_2.
Qed.

Lemma labelled_setitem_ne k g d s :
  k ≠ g → labelled k (setitem d g s) = labelled k d.
Proof.
  intros Hne. unfold labelled, setitem. simpl. case_bool_decide as Hg.
  - induction (df_cols d) as [|c l IH]; [done|].
    rewrite fmap_cons, !filter_cons. case_bool_decide as Hc.
    + rewrite !decide_False by (simpl; congruence). apply IH.
    + destruct (decide (c.1 = k)); [|apply IH].
      rewrite !fmap_cons. f_equal. apply IH.
  - rewrite filter_app, fmap_app, filter_cons, decide_False by (simpl; congruence).
    by rewrite filter_nil, app_nil_r.
Qed.

Lemma labelled_setitem_eq g d s x : x ∈ labelled g (setitem d g s) → x = s.
Proof.
  intros Hin. apply elem_of_labelled, elem_of_cols_setitem in Hin.
  by destruct Hin as [[_ ?]|[? _]].
Qed.

(** Assigning a label the values its columns already have changes
    nothing. *)
Lemma setitem_same d g s :
  g ∈ columns d → (∀ c, c ∈ df_cols d → c.1 = g → c.2 = s) →
  setitem d g s = d.
Proof.
  intros Hg Hs. apply df_eq; [done|]. unfold setitem. simpl.
  rewrite bool_decide_eq_true_2 by done.
  rewrite <-(list_fmap_id (df_cols d)) at 2.
  apply Forall_fmap_ext, Forall_forall. intros c Hc.
  case_bool_decide as Hk; [|done]. destruct c as [k x]. simpl in *.
  f_equal. symmetry. by apply (Hs (k, x)).
Qed.

End FrameLemmas.

(** ** The steps of [load_data] *)

(** Facts about the labels of the source, by evaluation. *)
Lemma gap_not_numeric gap :
  gap ∈ [py "Edu_gap"; py "Labour_gap"] → gap ∉ NUMERIC_COLS.
Proof.
  intros Hg. apply (bool_decide_eq_false_1 _).
  apply elem_of_cons in Hg as [->|Hg]; [by vm_compute|].
  apply list_elem_of_singleton in Hg as ->. by vm_compute.
Qed.

Lemma gap_normalized gap :
  gap ∈ [py "Edu_gap"; py "Labour_gap"] → normalize_name gap = gap.
Proof.
  intros Hg. apply elem_of_cons in Hg as [->|Hg]; [by vm_compute|].
  apply list_elem_of_singleton in Hg as ->. by vm_compute.
Qed.

Section LoaderLemmas.
Context {num : Type} `{!Numeric num}.
Implicit Types (d df : DataFrame num) (k g : str) (s : Series num).
Implicit Types (c : str * Series num) (L : list str).

Lemma conv_in_fst L c : (conv_in L c).1 = c.1.
Proof. unfold conv_in. by case_bool_decide. Qed.

Lemma unique_labels_columns L d1 d2 :
  columns d1 = columns d2 → unique_labels L d1 = unique_labels L d2.
Proof.
  intros Hc. unfold unique_labels.
  induction L as [|k L IH]; [done|]. simpl.
  by rewrite !length_labelled, Hc, IH.
Qed.

Lemma columns_conv_in L n l :
  columns (mkDataFrame n (conv_in L <$> l)) = columns (mkDataFrame n l).
Proof.
  unfold columns. simpl. rewrite <-list_fmap_compose.
  apply list_fmap_ext. intros ? c _. apply conv_in_fst.
Qed.

Lemma convert_numeric_eq col d :
  convert_numeric col d =
  if bool_decide (length (labelled col d) ≤ 1)
  then Return (mkDataFrame (df_len d) (conv_in [col] <$> df_cols d))
  else Raise (TypeError "arg must be a list, tuple, 1-d array, or Series").
Proof.
  unfold convert_numeric. case_bool_decide as Hin.
  - unfold getitem. destruct (labelled col d) as [|x [|y l]] eqn:Hl.
    + by apply labelled_nil in Hl.
    + simpl. f_equal. apply df_eq; [done|]. simpl.
      rewrite bool_decide_eq_true_2 by done.
      apply Forall_fmap_ext, Forall_forall. intros c Hc. unfold conv_in.
      rewrite (bool_decide_ext (c.1 ∈ [col]) (c.1 = col))
        by apply list_elem_of_singleton.
      case_bool_decide as Hk; [|done].
      by rewrite (labelled_singleton _ _ _ _ Hl Hc Hk).
    + done.
  - apply labelled_nil in Hin as Hl. rewrite Hl. simpl. f_equal.
    apply df_eq; [done|]. simpl. rewrite <-(list_fmap_id (df_cols d)) at 1.
    apply Forall_fmap_ext, Forall_forall. intros c Hc. unfold conv_in.
    rewrite bool_decide_eq_false_2; [done|].
    intros Hk%list_elem_of_singleton. apply Hin. unfold columns.
    rewrite <-Hk. by apply list_elem_of_fmap_2.
Qed.

Lemma conv_in_cons col L c : conv_in L (conv_in [col] c) = conv_in (col :: L) c.
Proof.
  unfold conv_in at 2.
  rewrite (bool_decide_ext (c.1 ∈ [col]) (c.1 = col))
    by apply list_elem_of_singleton.
  case_bool_decide as Hk; unfold conv_in; simpl.
  - rewrite (bool_decide_eq_true_2 (c.1 ∈ col :: L)) by (rewrite Hk; by left).
    case_bool_decide; [|done]. by rewrite to_numeric_idem.
  - rewrite (bool_decide_ext (c.1 ∈ col :: L) (c.1 ∈ L)); [done|].
    rewrite elem_of_cons. split; [by intros [?|?]|by right].
Qed.

(** The whole loop: it raises when a label of the list is carried by
    several columns, and converts the columns of the list if not. *)
Lemma for_each_convert_numeric L d :
  for_each L convert_numeric d =
  if unique_labels L d
  then Return (mkDataFrame (df_len d) (conv_in L <$> df_cols d))
  else Raise (TypeError "arg must be a list, tuple, 1-d array, or Series").
Proof.
  revert d. induction L as [|col L IH]; intros d.
  - simpl. f_equal. apply df_eq; [done|]. simpl.
    rewrite <-(list_fmap_id (df_cols d)) at 1. apply list_fmap_ext.
    intros ? c _. unfold conv_in. by rewrite bool_decide_eq_false_2 by apply not_elem_of_nil.
  - simpl. rewrite convert_numeric_eq. case_bool_decide as Hu; [|done].
    simpl. rewrite IH. simpl.
    rewrite (unique_labels_columns L _ d) by (destruct d; apply columns_conv_in).
    destruct (unique_labels L d); [|done]. f_equal. apply df_eq; [done|].
    simpl. rewrite <-list_fmap_compose. apply list_fmap_ext.
    intros ? c _. apply conv_in_cons.
Qed.

Lemma gap_column_Return gap m f d d' :
  gap_column gap m f d = Return d'
  ↔ ∃ s, gap_spec m f d s ∧ d' = setitem d gap s.
Proof.
  unfold gap_column, gap_spec.
  destruct (bool_decide (f ∈ columns d) && bool_decide (m ∈ columns d)).
  - unfold getitem. split.
    + intros (a & Ha & (b & Hb & (s & Hs & [= <-])%bind_Return)%bind_Return)%bind_Return.
      destruct (labelled m d) as [|x [|? ?]]; simplify_eq;
        destruct (labelled f d) as [|y [|? ?]]; simplify_eq;
        simpl in *; simplify_eq.
      exists s. split; [|done]. by exists x, y.
    + intros (s & (x & y & -> & -> & Hs) & ->). simpl. by rewrite Hs.
  - split.
    + intros [= <-]. by eexists.
    + by intros (s & -> & ->).
Qed.

Lemma columns_converted df : columns (converted df) = normalize_name <$> columns df.
Proof.
  unfold columns, converted. simpl. rewrite <-!list_fmap_compose.
  apply list_fmap_ext. intros ? c _. apply conv_in_fst.
Qed.

Lemma clean_eq df :
  clean df =
  if unique_labels NUMERIC_COLS (converted df)
  then d ← gap_column (py "Edu_gap") (py "M_secondary_educ")
             (py "F_secondary_educ") (converted df);
       gap_column (py "Labour_gap") (py "M_Labour_force")
         (py "F_Labour_force") d
  else Raise (TypeError "arg must be a list, tuple, 1-d array, or Series").
Proof.
  unfold clean. rewrite for_each_convert_numeric.
  set (d2 := map_columns _ _).
  assert (mkDataFrame (df_len d2) (conv_in NUMERIC_COLS <$> df_cols d2)
          = converted df) as ->.
  { apply df_eq; [done|]. unfold converted, cleaned_col. simpl.
    by rewrite <-!list_fmap_compose. }
  rewrite (unique_labels_columns _ d2 (converted df)).
  2:{ rewrite columns_converted. unfold columns, d2. simpl.
      by rewrite <-!list_fmap_compose. }
  destruct (unique_labels _ _); [|done]. simpl.
  destruct (gap_column _ _ _ (converted df)) as [d|e]; [|done]. simpl.
  by destruct (gap_column _ _ _ d).
Qed.

(** When the cleaning gives a frame, and which. *)
Lemma clean_Return df df' :
  clean df = Return df' ↔
  unique_labels NUMERIC_COLS (converted df) = true ∧
  ∃ e l,
    gap_spec (py "M_secondary_educ") (py "F_secondary_educ") (converted df) e ∧
    gap_spec (py "M_Labour_force") (py "F_Labour_force")
      (setitem (converted df) (py "Edu_gap") e) l ∧
    df' = setitem (setitem (converted df) (py "Edu_gap") e) (py "Labour_gap") l.
Proof.
  rewrite clean_eq. destruct (unique_labels _ _).
  - rewrite bind_Return. setoid_rewrite gap_column_Return. split.
    + intros (d & (e & He & ->) & (l & Hl & ->)). split; [done|]. by exists e, l.
    + intros (_ & e & l & He & Hl & ->). eexists. split; by eexists.
  - split; [done|]. by intros [? _].
Qed.

End LoaderLemmas.

(** ** The frame [load_data] returns *)

Lemma GAPS_inv gap m f :
  (gap, m, f) ∈ GAPS →
  gap ∈ GAP_COLS ∧ m ∈ NUMERIC_COLS ∧ f ∈ NUMERIC_COLS
  ∧ (m ∉ GAP_COLS) ∧ (f ∉ GAP_COLS).
Proof.
  intros Hg. apply elem_of_cons in Hg as [[= -> -> ->]|Hg].
  2: apply list_elem_of_singleton in Hg as [= -> -> ->].
  all: repeat split; by_evaluation.
Qed.

Section Returned.
Context {num : Type} `{!Numeric num}.
Implicit Types (d df : DataFrame num) (k g : str) (s : Series num).
Implicit Types (c : str * Series num) (w : World num).

Lemma load_data_Some w path df' err :
  outcome (load_data w path) = Return (Some df', err) →
  ∃ df, os_path_exists w path = true ∧ pd_read_csv w path = Return df
        ∧ clean df = Return df' ∧ err = None.
Proof.
  unfold load_data. destruct (os_path_exists w path); simpl; [|done].
  destruct (pd_read_csv w path) as [df|e]; simpl; [|done].
  destruct (clean df) as [d|e] eqn:Hc; simpl; [|done].
  intros [= <- <-]. by exists df.
Qed.

Lemma load_data_read w path df df' err :
  pd_read_csv w path = Return df →
  outcome (load_data w path) = Return (Some df', err) →
  clean df = Return df'.
Proof.
  intros Hread (df0 & _ & Hread' & Hclean & _)%load_data_Some. congruence.
Qed.

Lemma load_data_clean w path df :
  os_path_exists w path = true → pd_read_csv w path = Return df →
  outcome (load_data w path) = (d ← clean df; Return (Some d, None)).
Proof. unfold load_data. by intros -> ->. Qed.

Lemma gap_spec_setitem m f d g s' s :
  m ≠ g → f ≠ g →
  gap_spec m f (setitem d g s') s ↔ gap_spec m f d s.
Proof.
  intros Hm Hf. unfold gap_spec.
  rewrite !labelled_setitem_ne, df_len_setitem by done.
  rewrite (bool_decide_ext (f ∈ columns (setitem d g s')) (f ∈ columns d)),
    (bool_decide_ext (m ∈ columns (setitem d g s')) (m ∈ columns d)); [done|..];
    rewrite elem_of_columns_setitem; (split; [by intros [?|?]|by left]).
Qed.

Lemma cleaned_col_fst c : (cleaned_col c).1 = normalize_name c.1.
Proof. unfold cleaned_col. by rewrite conv_in_fst. Qed.

Lemma df_len_clean df df' : clean df = Return df' → df_len df' = df_len df.
Proof. intros (_ & e & l & _ & _ & ->)%clean_Return. done. Qed.

(** The labels of the returned frame: the normalised labels of the file,
    then the gap labels that were not among them. *)
Lemma elem_of_columns_clean df df' k :
  clean df = Return df' →
  k ∈ columns df' ↔ k ∈ normalize_name <$> columns df ∨ k ∈ GAP_COLS.
Proof.
  intros (_ & e & l & _ & _ & ->)%clean_Return.
  rewrite !elem_of_columns_setitem, columns_converted. unfold GAP_COLS.
  rewrite elem_of_cons, list_elem_of_singleton. tauto.
Qed.

(** A column that is not a gap column is the cleaned column of the file. *)
Lemma labelled_clean df df' k :
  clean df = Return df' → k ∉ GAP_COLS →
  labelled k df' = labelled k (converted df).
Proof.
  intros (_ & e & l & _ & _ & ->)%clean_Return Hk.
  rewrite !labelled_setitem_ne; [done|..]; intros ->; apply Hk;
    unfold GAP_COLS; [by left|by right; left].
Qed.

(** A gap column holds what its [if]/[else] assigned. *)
Lemma gap_clean df df' gap m f :
  clean df = Return df' → (gap, m, f) ∈ GAPS →
  ∃ s, gap_spec m f (converted df) s ∧ gap ∈ columns df'
       ∧ ∀ x, x ∈ labelled gap df' → x = s.
Proof.
  intros (_ & e & l & He & Hl & ->)%clean_Return Hg.
  apply elem_of_cons in Hg as [[= -> -> ->]|Hg].
  2: apply list_elem_of_singleton in Hg as [= -> -> ->].
  - exists e. split; [done|]. split.
    + rewrite !elem_of_columns_setitem. by left; right.
    + intros x. rewrite labelled_setitem_ne by done.
      apply labelled_setitem_eq.
  - exists l. split; [by apply gap_spec_setitem in Hl|]. split.
    + rewrite elem_of_columns_setitem. by right.
    + apply labelled_setitem_eq.
Qed.

(** The columns of the file keep their places; one that is not a gap
    column holds its cleaned values. *)
Lemma lookup_clean df df' j c :
  clean df = Return df' → df_cols df !! j = Some c →
  ∃ col', df_cols df' !! j = Some (normalize_name c.1, col')
          ∧ (normalize_name c.1 ∉ GAP_COLS → col' = (cleaned_col c).2).
Proof.
  intros (_ & e & l & _ & _ & ->)%clean_Return Hj.
  assert (df_cols (converted df) !! j = Some (cleaned_col c)) as Hcv.
  { unfold converted. simpl. by rewrite list_lookup_fmap, Hj. }
  apply (setitem_lookup _ (py "Edu_gap") e) in Hcv.
  apply (setitem_lookup _ (py "Labour_gap") l) in Hcv.
  rewrite Hcv. clear Hcv.
  pose proof (cleaned_col_fst c) as Hfst.
  destruct (cleaned_col c) as [n col]. simpl in *. subst n.
  repeat case_bool_decide; simpl in *;
    eexists; (split; [reflexivity|]); intros Hn; try done;
    exfalso; apply Hn; unfold GAP_COLS;
    rewrite elem_of_cons, list_elem_of_singleton; tauto.
Qed.

End Returned.

(* ================================================================== *)
(** * The properties of the specification *)

Section Claims.
Context {num : Type} `{!Numeric num}.
Implicit Types (d df : DataFrame num) (k g : str) (s : Series num).
Implicit Types (c : str * Series num) (w : World num).

(** Whatever [load_data] returns is a table without an error message or
    an error message without a table. *)
Lemma load_data_returned w path t err :
  outcome (load_data w path) = Return (t, err) →
  is_Some t ∧ err = None ∨ t = None ∧ is_Some err.
Proof.
  unfold load_data. destruct (os_path_exists w path); simpl.
  - destruct (pd_read_csv w path) as [df|e]; simpl.
    + destruct (clean df); simpl; [|done]. intros [= <- <-]. by left.
    + intros [= <- <-]. by right.
  - intros [= <- <-]. by right.
Qed.

(** A numeric column of the converted frame has no text left. *)
Lemma converted_numeric_not_Str df k x :
  k ∈ NUMERIC_COLS → x ∈ labelled k (converted df) →
  Forall (λ v, is_Str v = false) x.
Proof.
  intros Hk Hx. apply elem_of_labelled in Hx. unfold converted in Hx.
  simpl in Hx. apply list_elem_of_fmap in Hx as (c & Hc & _).
  unfold cleaned_col, conv_in in Hc. simpl in Hc.
  case_bool_decide as Hn; simplify_eq; [apply to_numeric_not_Str|done].
Qed.

(** C7: when the path names no existing file, [load_data] returns no
    table and the message "File not found at: " followed by the path, and
    the only call it makes is the existence test: the parser is not
    called. *)
Theorem load_data_not_found w path :
  os_path_exists w path = false →
  load_data w path =
  mkRun [OsPathExists path]
    (Return (None, Some (py "File not found at: " ++ path))).
Proof. unfold load_data. by intros ->. Qed.

(** C5: when one of the two source columns of a gap column is not among
    the normalised labels of the file, the returned frame has the gap
    column, and every column with that label holds the missing marker in
    every row. *)
Theorem gap_missing_without_sources w path df df' gap m f :
  pd_read_csv w path = Return df →
  outcome (load_data w path) = Return (Some df', None) →
  (gap, m, f) ∈ GAPS →
  ¬ (m ∈ normalize_name <$> columns df ∧ f ∈ normalize_name <$> columns df) →
  df_len df' = df_len df ∧ gap ∈ columns df'
  ∧ ∀ s, s ∈ labelled gap df' → s = replicate (df_len df') NaN.
Proof.
  intros Hread Hclean%(load_data_read _ _ _ _ _ Hread) Hg Habs.
  split; [by eapply df_len_clean|].
  destruct (gap_clean _ _ _ _ _ Hclean Hg) as (s0 & Hs0 & Hin & Hall).
  split; [done|]. intros s Hs. rewrite (Hall s Hs).
  unfold gap_spec in Hs0. rewrite columns_converted in Hs0.
  rewrite (df_len_clean _ _ Hclean).
  destruct (bool_decide (f ∈ _)) eqn:Hf; [|done].
  destruct (bool_decide (m ∈ _)) eqn:Hm; [|done].
  apply bool_decide_eq_true_1 in Hf, Hm. by destruct Habs.
Qed.

(** C4: when both source columns of a gap column are among the normalised
    labels of the file, each is one column of the returned frame, and the
    gap column holds, row by row, the missing marker where either is
    missing and the difference [m - f] of the two numbers where neither
    is. *)
Theorem gap_is_difference w path df df' gap m f :
  pd_read_csv w path = Return df →
  outcome (load_data w path) = Return (Some df', None) →
  (gap, m, f) ∈ GAPS →
  m ∈ normalize_name <$> columns df →
  f ∈ normalize_name <$> columns df →
  ∃ x y, labelled m df' = [x] ∧ labelled f df' = [y] ∧ gap ∈ columns df' ∧
    ∀ s, s ∈ labelled gap df' →
      length s = min (length x) (length y) ∧
      ∀ i a b, x !! i = Some a → y !! i = Some b →
        (isna a = true ∨ isna b = true → s !! i = Some NaN) ∧
        (isna a = false → isna b = false →
         ∃ p q, as_number a = Some p ∧ as_number b = Some q
                ∧ s !! i = Some (of_option (num_sub p q))).
Proof.
  intros Hread Hclean%(load_data_read _ _ _ _ _ Hread) Hg Hm Hf.
  destruct (gap_clean _ _ _ _ _ Hclean Hg) as (s0 & Hs0 & Hin & Hall).
  destruct (GAPS_inv _ _ _ Hg) as (_ & Hmn & Hfn & Hmg & Hfg).
  unfold gap_spec in Hs0. rewrite columns_converted in Hs0.
  rewrite !bool_decide_eq_true_2 in Hs0 by done.
  destruct Hs0 as (x & y & Hx & Hy & Hsub).
  exists x, y. rewrite !(labelled_clean _ _ _ Hclean) by done.
  split_and!; [done..|]. intros s Hs. rewrite (Hall s Hs). clear s Hs Hall.
  assert (Forall (λ v, is_Str v = false) x) as Hxs.
  { eapply (converted_numeric_not_Str df m); [done|]. rewrite Hx. by left. }
  assert (Forall (λ v, is_Str v = false) y) as Hys.
  { eapply (converted_numeric_not_Str df f); [done|]. rewrite Hy. by left. }
  rewrite series_sub_converted in Hsub by done.
  destruct (is_bool_dtype x && is_bool_dtype y); [done|].
  injection Hsub as <-. split; [apply length_zip_with|].
  intros i a b Ha Hb. rewrite lookup_zip_with, Ha, Hb. simpl.
  pose proof (Forall_lookup_1 _ _ _ _ Hxs Ha) as Hna.
  pose proof (Forall_lookup_1 _ _ _ _ Hys Hb) as Hnb.
  unfold cell_minus. split.
  - intros [?|?]; [by destruct a|by destruct a, b].
  - intros ? ?. destruct a, b; simplify_eq/=; by eexists _, _.
Qed.

Lemma cleaned_col_snd name col :
  (cleaned_col (name, col)).2 =
  if bool_decide (normalize_name name ∈ NUMERIC_COLS)
  then to_numeric (replace_cell (py "..") NaN <$> col)
  else replace_cell (py "..") NaN <$> col.
Proof. unfold cleaned_col, conv_in. simpl. by case_bool_decide. Qed.

(** C10: a column whose normalised label is neither a numeric one nor a
    gap label keeps its place and its cells, except that a cell that is
    exactly ".." becomes the missing marker; its label is normalised. *)
Theorem other_columns_unchanged w path df df' j name col :
  pd_read_csv w path = Return df →
  outcome (load_data w path) = Return (Some df', None) →
  df_cols df !! j = Some (name, col) →
  normalize_name name ∉ NUMERIC_COLS →
  normalize_name name ∉ GAP_COLS →
  ∃ col', df_cols df' !! j = Some (normalize_name name, col')
    ∧ length col' = length col
    ∧ ∀ i v, col !! i = Some v →
        (v = Str (py "..") → col' !! i = Some NaN)
        ∧ (v ≠ Str (py "..") → col' !! i = Some v).
Proof.
  intros Hread Hclean%(load_data_read _ _ _ _ _ Hread) Hj Hn Hg.
  destruct (lookup_clean _ _ _ _ Hclean Hj) as (col' & Hj' & Hcol).
  simpl in *. specialize (Hcol Hg). rewrite cleaned_col_snd in Hcol.
  rewrite bool_decide_eq_false_2 in Hcol by done. subst col'.
  eexists. split; [done|]. split; [apply length_fmap|].
  intros i v Hv. rewrite list_lookup_fmap, Hv. simpl. split.
  - intros ->. done.
  - intros Hne. f_equal. destruct v as [|t| |]; simpl; try done.
    rewrite bool_decide_eq_false_2; [done|]. by intros ->.
Qed.

(** C2, amended: in a column whose normalised label is not a gap label, a
    cell that is exactly ".." is the missing marker in the returned frame;
    and line 44 leaves every cell that is not exactly ".." as it is. *)
Theorem placeholder_reads_missing w path df df' j name col :
  pd_read_csv w path = Return df →
  outcome (load_data w path) = Return (Some df', None) →
  df_cols df !! j = Some (name, col) →
  normalize_name name ∉ GAP_COLS →
  (∃ col', df_cols df' !! j = Some (normalize_name name, col')
     ∧ ∀ i, col !! i = Some (Str (py "..")) → col' !! i = Some NaN)
  ∧ ∀ v : cell num, v ≠ Str (py "..") → replace_cell (py "..") NaN v = v.
Proof.
  intros Hread Hclean%(load_data_read _ _ _ _ _ Hread) Hj Hg. split.
  - destruct (lookup_clean _ _ _ _ Hclean Hj) as (col' & Hj' & Hcol).
    simpl in *. specialize (Hcol Hg). rewrite cleaned_col_snd in Hcol.
    exists col'. split; [done|]. intros i Hi. subst col'.
    assert ((replace_cell (py "..") NaN <$> col) !! i = Some NaN) as Hr.
    { by rewrite list_lookup_fmap, Hi. }
    case_bool_decide; [by apply to_numeric_lookup_NaN|done].
  - intros v Hne. destruct v as [|t| |]; simpl; try done.
    rewrite bool_decide_eq_false_2; [done|]. by intros ->.
Qed.

Lemma is_bool_dtype_replace r s :
  is_bool_dtype (replace_cell r NaN <$> s) = is_bool_dtype s.
Proof.
  assert (∀ l : Series num,
            forallb is_Bool (replace_cell r NaN <$> l) = forallb is_Bool l)
    as Hall.
  { induction l as [|a l IH]; [done|]. rewrite fmap_cons. simpl.
    rewrite IH. f_equal. destruct a as [|t| |]; simpl; try done.
    by case_bool_decide. }
  destruct s as [|v s]; [done|]. apply (Hall (v :: s)).
Qed.

Lemma is_bool_dtype_to_numeric s : is_bool_dtype (to_numeric s) = is_bool_dtype s.
Proof.
  unfold to_numeric. destruct (is_bool_dtype s) eqn:Hs; [done|].
  apply is_bool_dtype_fmap_to_numeric_cell.
Qed.

Lemma unique_labels_converted df :
  numeric_labels_unique df → unique_labels NUMERIC_COLS (converted df) = true.
Proof.
  intros Hu. unfold unique_labels. apply forallb_forall. intros k Hk.
  apply bool_decide_eq_true_2.
  rewrite length_labelled, columns_converted. apply Hu.
  by apply list_elem_of_In.
Qed.

Lemma unique_labels_labelled L d k :
  unique_labels L d = true → k ∈ L → k ∈ columns d →
  ∃ x, labelled k d = [x].
Proof.
  intros Hu Hk Hin. unfold unique_labels in Hu.
  rewrite forallb_forall in Hu. apply list_elem_of_In in Hk.
  apply Hu, bool_decide_eq_true_1 in Hk.
  destruct (labelled k d) as [|x [|y l]] eqn:Hl.
  - by apply labelled_nil in Hl.
  - by exists x.
  - simpl in Hk. lia.
Qed.

(** The cleaning gives a frame whenever the numeric labels are not
    repeated and no gap column has two Boolean sources: what the cells
    hold as text plays no part. *)
Lemma clean_succeeds df :
  numeric_labels_unique df →
  (∀ gap m f, (gap, m, f) ∈ GAPS → ¬ boolean_pair m f df) →
  ∃ df', clean df = Return df'.
Proof.
  intros Hu%unique_labels_converted Hb.
  assert (∀ gap m f, (gap, m, f) ∈ GAPS →
            ∃ s, gap_spec m f (converted df) s) as Hgap.
  { intros gap m f Hg. destruct (GAPS_inv _ _ _ Hg) as (_ & Hm & Hf & _).
    unfold gap_spec.
    destruct (bool_decide (f ∈ _)) eqn:Hfin; [|by eexists].
    destruct (bool_decide (m ∈ _)) eqn:Hmin; [|by eexists]. simpl.
    apply bool_decide_eq_true_1 in Hfin, Hmin.
    destruct (unique_labels_labelled _ _ _ Hu Hm Hmin) as [x Hx].
    destruct (unique_labels_labelled _ _ _ Hu Hf Hfin) as [y Hy].
    assert (x ∈ labelled m (converted df)) as Hxin by (rewrite Hx; by left).
    assert (y ∈ labelled f (converted df)) as Hyin by (rewrite Hy; by left).
    pose proof (series_sub_converted x y) as Hsub.
    specialize (Hsub (converted_numeric_not_Str df m x Hm Hxin)
                     (converted_numeric_not_Str df f y Hf Hyin)).
    destruct (is_bool_dtype x && is_bool_dtype y) eqn:Hxy;
      [|by exists (zip_with cell_minus x y), x, y].
    exfalso. apply andb_true_iff in Hxy as [Hxb Hyb].
    apply elem_of_labelled in Hxin, Hyin. unfold converted in Hxin, Hyin.
    simpl in *.
    apply list_elem_of_fmap in Hxin as ([nm cm] & Hcm & Hcmin).
    apply list_elem_of_fmap in Hyin as ([nf cf] & Hcf & Hcfin).
    apply (Hb gap m f Hg). exists (nm, cm), (nf, cf).
    pose proof (cleaned_col_fst (nm, cm)) as Hm1.
    pose proof (cleaned_col_fst (nf, cf)) as Hf1.
    pose proof (cleaned_col_snd nm cm) as Hm2.
    pose proof (cleaned_col_snd nf cf) as Hf2.
    rewrite <-Hcm in Hm1, Hm2. rewrite <-Hcf in Hf1, Hf2. simpl in *.
    subst m f. rewrite bool_decide_eq_true_2 in Hm2, Hf2 by done.
    subst x y.
    rewrite is_bool_dtype_to_numeric, is_bool_dtype_replace in Hxb, Hyb.
    done. }
  destruct (Hgap (py "Edu_gap") (py "M_secondary_educ") (py "F_secondary_educ"))
    as [e He]; [by left|].
  destruct (Hgap (py "Labour_gap") (py "M_Labour_force") (py "F_Labour_force"))
    as [l Hl]; [by right; left|].
  eexists. apply clean_Return. split; [done|]. exists e, l.
  split; [done|]. split; [|done]. by apply gap_spec_setitem.
Qed.

(** C3: in the returned frame every cell of a column with a numeric label
    is the missing marker or a number, never text; a text cell of such a
    column that does not read as a number is the missing marker there;
    the load gives a frame whatever text the cells hold (it is enough that
    no numeric label is repeated and no gap column has two Boolean
    sources); and the loop leaves the frame as it is for a numeric label
    the frame does not have. *)
Theorem numeric_columns_coerced w path df :
  os_path_exists w path = true →
  pd_read_csv w path = Return df →
  (∀ df', outcome (load_data w path) = Return (Some df', None) →
     (∀ k s, k ∈ NUMERIC_COLS → s ∈ labelled k df' →
             Forall (λ v, isna v = true ∨ is_number v = true) s)
     ∧ (∀ j name col i t,
          df_cols df !! j = Some (name, col) →
          normalize_name name ∈ NUMERIC_COLS →
          col !! i = Some (Str t) → parse_number t = None →
          ∃ col', df_cols df' !! j = Some (normalize_name name, col')
                  ∧ col' !! i = Some NaN))
  ∧ (numeric_labels_unique df →
     (∀ gap m f, (gap, m, f) ∈ GAPS → ¬ boolean_pair m f df) →
     ∃ df', outcome (load_data w path) = Return (Some df', None))
  ∧ (∀ col d, col ∈ NUMERIC_COLS → col ∉ columns d →
              convert_numeric col d = Return d).
Proof.
  intros Hex Hread. split; [|split].
  - intros df' Hclean%(load_data_read _ _ _ _ _ Hread). split.
    + intros k s Hk Hs.
      rewrite (labelled_clean _ _ _ Hclean) in Hs.
      2:{ intros Hg. by apply gap_not_numeric in Hg. }
      eapply Forall_impl; [by eapply converted_numeric_not_Str|].
      intros [| | |]; simpl; auto.
    + intros j name col i t Hj Hn Hi Ht.
      destruct (lookup_clean _ _ _ _ Hclean Hj) as (col' & Hj' & Hcol).
      simpl in *. exists col'. split; [done|]. rewrite Hcol.
      2:{ intros Hg. by apply gap_not_numeric in Hg. }
      rewrite cleaned_col_snd, bool_decide_eq_true_2 by done.
      assert ((replace_cell (py "..") NaN <$> col) !! i
              = Some (replace_cell (py "..") NaN (Str t))) as Hr.
      { by rewrite list_lookup_fmap, Hi. }
      destruct (to_numeric_lookup _ _ _ Hr) as [[_ Hb]| ->].
      * simpl in Hb. by case_bool_decide.
      * f_equal. simpl. case_bool_decide; [done|]. simpl. by rewrite Ht.
  - intros Hu Hb. destruct (clean_succeeds df Hu Hb) as [df' Hclean].
    exists df'. by rewrite (load_data_clean _ _ _ Hex Hread), Hclean.
  - intros col d _ Hnot. unfold convert_numeric.
    by rewrite bool_decide_eq_false_2.
Qed.

(** *** Rows *)

Lemma mapM_Return {A B} (f : A → result B) (l : list A) (k : list B) :
  mapM f l = Return k → Forall2 (λ a b, f a = Return b) l k.
Proof.
  revert k. induction l as [|a l IH]; intros k; simpl.
  - intros [= <-]. constructor.
  - intros (b & Hb & (k' & Hk' & [= <-])%bind_Return)%bind_Return.
    constructor; [done|]. by apply IH.
Qed.

Lemma cell_sub_not_Str (a b v : cell num) :
  cell_sub a b = Return v → is_Str v = false.
Proof.
  destruct a, b; simpl; intros [= <-]; try done; by destruct (num_sub _ _).
Qed.

(** A difference of two columns has a cell for each row the two share,
    and none of its cells is text. *)
Lemma series_sub_Return x y s :
  series_sub x y = Return s →
  length s = min (length x) (length y) ∧ Forall (λ v, is_Str v = false) s.
Proof.
  unfold series_sub. destruct (is_bool_dtype x && is_bool_dtype y); [done|].
  intros Hs%mapM_Return. split.
  - apply Forall2_length in Hs. by rewrite <-Hs, length_zip.
  - clear -Hs. induction Hs as [|[a b] v l k Hv _ IH]; constructor; [|done].
    by eapply cell_sub_not_Str.
Qed.

Lemma length_cleaned_col c : length (cleaned_col c).2 = length c.2.
Proof.
  destruct c as [name col]. rewrite cleaned_col_snd.
  case_bool_decide; by rewrite ?length_to_numeric, length_fmap.
Qed.

Lemma wf_converted df : wf df → wf (converted df).
Proof.
  unfold wf, converted. simpl. intros Hwf. apply Forall_fmap.
  eapply Forall_impl; [exact Hwf|]. intros c Hc. simpl.
  by rewrite length_cleaned_col.
Qed.

Lemma wf_setitem d g s : wf d → length s = df_len d → wf (setitem d g s).
Proof.
  unfold wf. intros Hwf Hs. apply Forall_forall. intros c Hc.
  rewrite df_len_setitem.
  apply elem_of_cols_setitem in Hc as [[_ ->]|[_ Hc]]; [done|].
  by apply (proj1 (Forall_forall _ _) Hwf).
Qed.

Lemma gap_spec_Return m f d s :
  gap_spec m f d s →
  (wf d → length s = df_len d) ∧ Forall (λ v, is_Str v = false) s.
Proof.
  unfold gap_spec.
  destruct (bool_decide (f ∈ columns d) && bool_decide (m ∈ columns d)).
  - intros (x & y & Hx & Hy & (Hlen & Hstr)%series_sub_Return).
    split; [|done]. intros Hwf. rewrite Hlen.
    assert ((m, x) ∈ df_cols d) as Hxin.
    { apply elem_of_labelled. rewrite Hx. by left. }
    assert ((f, y) ∈ df_cols d) as Hyin.
    { apply elem_of_labelled. rewrite Hy. by left. }
    apply (proj1 (Forall_forall _ _) Hwf) in Hxin, Hyin. simpl in *. lia.
  - intros ->. split; [by rewrite length_replicate|].
    apply Forall_forall. by intros v [-> _]%elem_of_replicate.
Qed.

Lemma wf_clean df df' : wf df → clean df = Return df' → wf df'.
Proof.
  intros Hwf%wf_converted (_ & e & l & He & Hl & ->)%clean_Return.
  apply gap_spec_Return in He as [He _]. apply gap_spec_Return in Hl as [Hl _].
  assert (wf (setitem (converted df) (py "Edu_gap") e)) as Hwf1.
  { apply wf_setitem; [done|]. by apply He. }
  apply wf_setitem; [done|]. by apply Hl.
Qed.

(** C9: the returned frame has as many rows as the parsed one; each of
    its columns has one cell per row; and every column of the file is
    there at its place with as many cells, the cell of row [i] being what
    the cleaning makes of the file's cell of row [i]: that cell with the
    placeholder replaced, or that read as a number.  (The cells of a gap
    column are computed from row [i] of its sources, see C4.) *)
Theorem rows_preserved w path df df' :
  pd_read_csv w path = Return df →
  outcome (load_data w path) = Return (Some df', None) →
  wf df →
  df_len df' = df_len df ∧ wf df' ∧
  ∀ j name col, df_cols df !! j = Some (name, col) →
    ∃ col', df_cols df' !! j = Some (normalize_name name, col')
      ∧ length col' = length col
      ∧ (normalize_name name ∉ GAP_COLS →
         ∀ i v, col !! i = Some v →
           col' !! i = Some (replace_cell (py "..") NaN v)
           ∨ col' !! i = Some (to_numeric_cell (replace_cell (py "..") NaN v))).
Proof.
  intros Hread Hclean%(load_data_read _ _ _ _ _ Hread) Hwf.
  pose proof (wf_clean _ _ Hwf Hclean) as Hwf'.
  pose proof (df_len_clean _ _ Hclean) as Hlen.
  split; [done|]. split; [done|]. intros j name col Hj.
  destruct (lookup_clean _ _ _ _ Hclean Hj) as (col' & Hj' & Hcol).
  simpl in *. exists col'. split; [done|]. split.
  - apply list_elem_of_lookup_2 in Hj, Hj'.
    apply (proj1 (Forall_forall _ _) Hwf) in Hj.
    apply (proj1 (Forall_forall _ _) Hwf') in Hj'. simpl in *. congruence.
  - intros Hg i v Hi. rewrite (Hcol Hg), cleaned_col_snd.
    assert ((replace_cell (py "..") NaN <$> col) !! i
            = Some (replace_cell (py "..") NaN v)) as Hr.
    { by rewrite list_lookup_fmap, Hi. }
    case_bool_decide; [|by left].
    destruct (to_numeric_lookup _ _ _ Hr) as [[? _]|?]; [by left|by right].
Qed.

(** *** Cleaning twice *)

Lemma replace_not_Str (s : Series num) :
  Forall (λ v, is_Str v = false) s → replace_cell (py "..") NaN <$> s = s.
Proof.
  intros Hs. rewrite <-(list_fmap_id s) at 2. apply Forall_fmap_ext.
  eapply Forall_impl; [exact Hs|]. intros v Hv. by apply replace_cell_not_Str.
Qed.

Lemma cleaned_col_idem c : cleaned_col (cleaned_col c) = cleaned_col c.
Proof.
  apply injective_projections.
  { rewrite !cleaned_col_fst. apply normalize_name_idem. }
  destruct (cleaned_col c) as [n' col'] eqn:Hc.
  pose proof (cleaned_col_fst c) as Hn. rewrite Hc in Hn. simpl in Hn.
  destruct c as [name col]. pose proof (cleaned_col_snd name col) as Hcol.
  rewrite Hc in Hcol. simpl in *. subst n'.
  rewrite cleaned_col_snd, normalize_name_idem.
  case_bool_decide; subst col'.
  - rewrite replace_not_Str by apply to_numeric_not_Str.
    apply to_numeric_idem.
  - rewrite <-list_fmap_compose. apply list_fmap_ext.
    intros ? v _. apply replace_cell_idem.
Qed.

Lemma cleaned_col_gap gap s :
  gap ∈ GAP_COLS → Forall (λ v, is_Str v = false) s →
  cleaned_col (gap, s) = (gap, s).
Proof.
  intros Hg Hs. apply injective_projections.
  - rewrite cleaned_col_fst. by apply gap_normalized.
  - rewrite cleaned_col_snd, gap_normalized by done.
    rewrite bool_decide_eq_false_2 by by apply gap_not_numeric.
    by apply replace_not_Str.
Qed.

Lemma unique_labels_true L d :
  unique_labels L d = true ↔ ∀ k, k ∈ L → length (labelled k d) ≤ 1.
Proof.
  unfold unique_labels. rewrite forallb_forall. split.
  - intros Hu k Hk. apply list_elem_of_In in Hk.
    by apply Hu, bool_decide_eq_true_1 in Hk.
  - intros Hu k Hk. apply list_elem_of_In in Hk.
    by apply bool_decide_eq_true_2, Hu.
Qed.

(** A frame the cleaning returned is returned as it is by a second
    cleaning. *)
Lemma clean_fixed df df' : clean df = Return df' → clean df' = Return df'.
Proof.
  intros Hclean.
  pose proof Hclean as (Hu & e & l & He & Hl & Hdf')%clean_Return.
  pose proof (proj2 (gap_spec_Return _ _ _ _ He)) as He_str.
  pose proof (proj2 (gap_spec_Return _ _ _ _ Hl)) as Hl_str.
  assert (converted df' = df') as Hfix.
  { apply df_eq; [done|]. unfold converted at 1. simpl.
    rewrite <-(list_fmap_id (df_cols df')) at 2.
    apply Forall_fmap_ext, Forall_forall. intros c Hc. rewrite Hdf' in Hc.
    apply elem_of_cols_setitem in Hc as [[Hc1 Hc2]|[_ Hc]].
    { destruct c; simpl in *; subst.
      apply cleaned_col_gap; [by right; left|done]. }
    apply elem_of_cols_setitem in Hc as [[Hc1 Hc2]|[_ Hc]].
    { destruct c; simpl in *; subst. apply cleaned_col_gap; [by left|done]. }
    unfold converted in Hc. simpl in Hc.
    apply list_elem_of_fmap in Hc as (c0 & -> & _). apply cleaned_col_idem. }
  assert (setitem df' (py "Edu_gap") e = df') as Hfix_e.
  { apply setitem_same.
    - rewrite Hdf', !elem_of_columns_setitem. by left; right.
    - intros c Hc Hk. rewrite Hdf' in Hc.
      apply elem_of_cols_setitem in Hc as [[Hc1 _]|[_ Hc]].
      { rewrite Hk in Hc1. by vm_compute in Hc1. }
      by apply elem_of_cols_setitem in Hc as [[_ ?]|[? _]]. }
  assert (setitem df' (py "Labour_gap") l = df') as Hfix_l.
  { apply setitem_same.
    - rewrite Hdf', elem_of_columns_setitem. by right.
    - intros c Hc Hk. rewrite Hdf' in Hc.
      by apply elem_of_cols_setitem in Hc as [[_ ?]|[? _]]. }
  apply clean_Return. rewrite Hfix. split.
  - apply unique_labels_true. intros k Hk.
    rewrite (labelled_clean _ _ _ Hclean).
    + by apply (proj1 (unique_labels_true _ _) Hu).
    + intros Hg. by apply gap_not_numeric in Hg.
  - exists e, l. rewrite Hfix_e, Hfix_l. split; [|split; [|done]].
    + rewrite Hdf'. by apply gap_spec_setitem, gap_spec_setitem.
    + rewrite Hdf'. by apply gap_spec_setitem.
Qed.

(** C6: cleaning a frame and then cleaning the result gives what cleaning
    it once gives: the same frame, or the same exception. *)
Theorem clean_idempotent df : clean df ≫= clean = clean df.
Proof.
  destruct (clean df) as [df'|e] eqn:Hclean; [|done]. simpl.
  by eapply clean_fixed.
Qed.

End Claims.

(** ** The summary *)

Section SummaryClaims.
Context {num : Type}.
Implicit Types (df : DataFrame num) (dtypes : Dtypes) (cols : list str).

Lemma mapM_fmap_Return {A B} (f : A → result B) (g : A → B) (l : list A) :
  Forall (λ a, f a = Return (g a)) l → mapM f l = Return (g <$> l).
Proof.
  induction 1 as [|a l Ha _ IH]; [done|].
  change (mapM f (a :: l)) with (y ← f a; k ← mapM f l; Return (y :: k)).
  by rewrite Ha, IH.
Qed.

Lemma col_label_typed_columns df dtypes :
  col_label <$> typed_columns df dtypes = columns df.
Proof.
  unfold typed_columns, columns. rewrite fmap_imap.
  by rewrite <-(imap_const fst (df_cols df)).
Qed.

(** A label of the frame has a column. *)
Lemma typed_labelled_nil key df dtypes :
  typed_labelled key df dtypes = [] ↔ key ∉ columns df.
Proof.
  rewrite <-(col_label_typed_columns df dtypes). unfold typed_labelled. split.
  - intros Hnil (c & -> & Hc)%list_elem_of_fmap.
    assert (c ∈ filter (λ c' : Column num, col_label c' = col_label c)
                  (typed_columns df dtypes)) as Hin.
    { by apply list_elem_of_filter. }
    rewrite Hnil in Hin. by apply elem_of_nil in Hin.
  - intros Hnot.
    destruct (filter _ (typed_columns df dtypes)) as [|c l] eqn:Hf; [done|].
    assert (c ∈ filter (λ c' : Column num, col_label c' = key)
                  (typed_columns df dtypes)) as Hin.
    { rewrite Hf. by left. }
    apply list_elem_of_filter in Hin as [<- Hin]. destruct Hnot.
    apply list_elem_of_fmap. by exists c.
Qed.

Lemma getitems_present df dtypes (l : list str) :
  Forall (λ k, k ∈ columns df) l →
  getitems df dtypes l =
  Return (mkTypedFrame (df_len df)
            (concat ((λ key, typed_labelled key df dtypes) <$> l))).
Proof.
  intros Hl. unfold getitems.
  rewrite (mapM_fmap_Return _ (λ key, typed_labelled key df dtypes));
    [done|].
  eapply Forall_impl; [exact Hl|]. intros k Hk. simpl.
  destruct (typed_labelled k df dtypes) eqn:Hlab; [|done].
  by apply typed_labelled_nil in Hlab.
Qed.

Lemma omap_cons_Some {A B} (f : A → option B) x y l :
  f x = Some y → omap f (x :: l) = y :: omap f l.
Proof. intros Hx. simpl. by rewrite Hx. Qed.

Lemma transpose_values {A B V} (f : A → B → V) (rows : list A) (bs : list B) :
  (λ j, omap (λ row : list V, row !! j) ((λ a, f a <$> bs) <$> rows))
    <$> seq 0 (length bs)
  = (λ b, (λ a, f a b) <$> rows) <$> bs.
Proof.
  apply list_eq. intros j. rewrite !list_lookup_fmap.
  destruct (bs !! j) as [b|] eqn:Hb; simpl.
  - rewrite lookup_seq_lt by by eapply lookup_lt_Some. simpl. f_equal.
    induction rows as [|a rows IH]; [done|]. rewrite !fmap_cons.
    rewrite (omap_cons_Some _ _ (f a b)); [by rewrite IH|].
    by rewrite list_lookup_fmap, Hb.
  - rewrite lookup_seq_ge; [done|]. by apply lookup_ge_None.
Qed.

Lemma transpose_describe stats (data : list (Column num)) :
  transpose (mkTable stats (col_label <$> data)
               ((λ st, (λ c : Column num, stat_value st (col_cells c)) <$> data)
                  <$> stats))
  = summary_of stats data.
Proof.
  unfold transpose, summary_of. simpl. f_equal.
  rewrite length_fmap.
  apply (transpose_values (λ st (c : Column num), stat_value st (col_cells c))).
Qed.

Lemma describe_transpose (d : TypedFrame num) :
  tf_cols d ≠ [] →
  (t ← describe d; Return (transpose t)) =
  Return
    match filter (λ c : Column num, is_number_dtype c = true) (tf_cols d) with
    | [] => summary_of object_stats (tf_cols d)
    | numeric => summary_of numeric_stats numeric
    end.
Proof.
  intros Hne. unfold describe.
  destruct (tf_cols d) as [|c0 l] eqn:Hd; [done|].
  destruct (filter _ (c0 :: l)) as [|n0 ns];
    cbv beta iota zeta; unfold mbind, result_bind;
    by rewrite transpose_describe.
Qed.

Lemma safe_numeric_summary_returns df dtypes cols :
  safe_numeric_summary df dtypes cols =
  Return
    match filter (λ c, c ∈ columns df) cols with
    | [] => empty_table
    | _ =>
        match filter (λ c : Column num, is_number_dtype c = true)
                (selected df dtypes cols) with
        | [] => summary_of object_stats (selected df dtypes cols)
        | numeric => summary_of numeric_stats numeric
        end
    end.
Proof.
  unfold safe_numeric_summary, selected.
  assert (Forall (λ k, k ∈ columns df) (filter (λ c, c ∈ columns df) cols))
    as Hpresent.
  { apply Forall_forall. by intros k [? _]%list_elem_of_filter. }
  destruct (filter (λ c, c ∈ columns df) cols) as [|k l] eqn:Hf; [done|].
  rewrite getitems_present by done.
  change (Return ?d ≫= ?k) with (k d). cbv beta.
  rewrite describe_transpose; [done|]. simpl.
  apply Forall_cons in Hpresent as [Hk _].
  destruct (typed_labelled k df dtypes) eqn:Hlab;
    [by apply typed_labelled_nil in Hlab|done].
Qed.

Lemma elem_of_concat {A} (x : A) (ls : list (list A)) :
  x ∈ concat ls ↔ ∃ l, x ∈ l ∧ l ∈ ls.
Proof.
  induction ls as [|l0 ls IH]; simpl.
  - split; [by intros ?%elem_of_nil|by intros (l & _ & ?%elem_of_nil)].
  - rewrite elem_of_app, IH. split.
    + intros [Hx|(l & Hx & Hl)]; [exists l0|exists l]; split; try done;
        [by left|by right].
    + intros (l & Hx & [->|Hl]%elem_of_cons); [by left|right; by exists l].
Qed.

(** What [df[cols]] selects, read off the frame: under each label of
    [cols] the frame has, the cells of the columns that carry it, each at
    its position [j] in the frame and with the dtype of that position. *)
Lemma elem_of_selected df dtypes cols (c : Column num) :
  c ∈ selected df dtypes cols ↔
  col_label c ∈ cols
  ∧ ∃ j, df_cols df !! j = Some (col_label c, col_cells c)
         ∧ is_number_dtype c = dtypes j.
Proof.
  unfold selected. rewrite elem_of_concat. split.
  - intros (l & Hc & (k & -> & [Hk Hcols]%list_elem_of_filter)%list_elem_of_fmap).
    apply list_elem_of_filter in Hc as [<- Hc]. split; [done|].
    apply elem_of_lookup_imap_1 in Hc as (j & [k s] & -> & Hj).
    by exists j.
  - intros [Hk (j & Hj & Hd)].
    exists (typed_labelled (col_label c) df dtypes). split.
    + apply list_elem_of_filter. split; [done|].
      destruct c as [k b s]. simpl in *. subst b.
      by apply (elem_of_lookup_imap_2
                  (λ j (c : str * Series num), mkColumn c.1 (dtypes j) c.2)
                  _ (k, s) j).
    + apply list_elem_of_fmap. exists (col_label c). split; [done|].
      apply list_elem_of_filter. split; [|done].
      apply list_elem_of_fmap. exists (col_label c, col_cells c).
      split; [done|]. by eapply list_elem_of_lookup_2.
Qed.

(** C8, amended: [safe_numeric_summary] never raises, whatever the dtypes
    of the frame.  With no label of [cols] in the frame it returns the
    empty table.  Otherwise it describes the selected columns: when some
    of them are of number dtype, one row for each of those and no row for
    the others, with count, mean, std, min, the three quartiles and max;
    when none is, one row for every selected column, with count, unique,
    top and freq.  The selected columns are the columns of the frame under
    a label of [cols], each with the dtype pandas keeps for its position;
    the count is the number of cells that are not missing. *)
Theorem safe_numeric_summary_spec df dtypes cols :
  safe_numeric_summary df dtypes cols =
  Return
    match filter (λ c, c ∈ columns df) cols with
    | [] => empty_table
    | _ =>
        match filter (λ c : Column num, is_number_dtype c = true)
                (selected df dtypes cols) with
        | [] => summary_of object_stats (selected df dtypes cols)
        | numeric => summary_of numeric_stats numeric
        end
    end
  ∧ (∀ c : Column num,
       c ∈ selected df dtypes cols ↔
       col_label c ∈ cols
       ∧ ∃ j, df_cols df !! j = Some (col_label c, col_cells c)
              ∧ is_number_dtype c = dtypes j)
  ∧ ∀ s : Series num,
      stat_value (py "count") s = Count (length (filter (λ c, isna c = false) s)).
Proof.
  split_and!; [|apply elem_of_selected|done].
  unfold safe_numeric_summary, selected.
  assert (Forall (λ k, k ∈ columns df) (filter (λ c, c ∈ columns df) cols))
    as Hpresent.
  { apply Forall_forall. by intros k [? _]%list_elem_of_filter. }
  destruct (filter (λ c, c ∈ columns df) cols) as [|k l] eqn:Hf; [done|].
  rewrite getitems_present by done.
  change (Return ?d ≫= ?k) with (k d). cbv beta.
  rewrite describe_transpose; [done|]. simpl.
  apply Forall_cons in Hpresent as [Hk _].
  destruct (typed_labelled k df dtypes) eqn:Hlab;
    [by apply typed_labelled_nil in Hlab|done].
Qed.

End SummaryClaims.

(* ================================================================== *)
(** * The dashboard script *)

(** ** Masks *)



Lemma length_compress {A B} mask (l : list A) (k : list B) :
  length l = length k → length (compress mask l) = length (compress mask k).
Proof.
  revert l k. induction mask as [|b mask IH]; intros [|x l] [|y k] Hlen;
    simplify_eq/=; try done.
  destruct b; simpl; by rewrite (IH l k).
Qed.

Lemma length_compress_le {A} mask (l : list A) :
  length (compress mask l) ≤ length l.
Proof.
  revert l. induction mask as [|b mask IH]; intros [|x l]; simpl; try lia.
  specialize (IH l). destruct b; simpl; lia.
Qed.

(** The entries kept are those at the places the mask holds. *)
Lemma elem_of_compress {A} mask (l : list A) x :
  x ∈ compress mask l ↔ ∃ i, mask !! i = Some true ∧ l !! i = Some x.
Proof.
  revert l. induction mask as [|b mask IH]; intros [|y l]; simpl.
  - split; [by intros ?%elem_of_nil|by intros (i & ? & ?)].
  - split; [by intros ?%elem_of_nil|by intros (i & ? & ?)].
  - split; [by intros ?%elem_of_nil|by intros (i & ? & ?)].
  - destruct b.
    + rewrite elem_of_cons, IH. split.
      * intros [->|(i & ? & ?)]; [by exists 0|by exists (S i)].
      * intros ([|i] & Hm & Hl); simplify_eq/=; [by left|right; by exists i].
    + rewrite IH. split.
      * intros (i & ? & ?). by exists (S i).
      * intros ([|i] & Hm & Hl); simplify_eq/=. by exists i.
Qed.

Lemma compress_all {A} mask (l : list A) :
  Forall (λ b, b = true) mask → length mask = length l → compress mask l = l.
Proof.
  intros Hm. revert l. induction Hm as [|b mask -> _ IH]; intros [|x l] Hlen;
    simplify_eq/=; try done.
  by rewrite IH.
Qed.




(** ** [dropna] *)

Section DropnaLemmas.
Context {num : Type} `{!Numeric num} `{!PandasErrors}.
Implicit Types (df g : DataFrame num) (subset : list str) (s : Series num).
Implicit Types (cs : list (Series num)).

Lemma lookup_complete_rows n cs i :
  complete_rows n cs !! i = Some true
  ↔ i < n ∧ Forall (λ s, ∃ c, s !! i = Some c ∧ isna c = false) cs.
Proof.
  induction cs as [|s cs IH]; simpl.
  - split.
    + intros Hi. split; [|done]. apply lookup_replicate in Hi. tauto.
    + intros [Hi _]. by apply lookup_replicate_2.
  - rewrite lookup_zip_with, Forall_cons. unfold notna_mask.
    rewrite list_lookup_fmap. split.
    + destruct (s !! i) as [c|]; simpl; [|done].
      destruct (complete_rows n cs !! i) as [b|] eqn:Hb; simpl; [|done].
      intros [= [Hc ->]%andb_true_iff]. apply negb_true_iff in Hc.
      destruct (proj1 IH eq_refl) as [? ?]. eauto.
    + intros (Hi & (c & -> & Hc) & Hcs). simpl.
      rewrite (proj2 IH (conj Hi Hcs)). simpl. by rewrite Hc.
Qed.

Lemma length_complete_rows n cs :
  Forall (λ s, length s = n) cs → length (complete_rows n cs) = n.
Proof.
  induction 1 as [|s cs Hs _ IH]; simpl; [apply length_replicate|].
  unfold notna_mask. rewrite length_zip_with, length_fmap. lia.
Qed.





Lemma dropna_eq subset df :
  dropna subset df =
  if forallb (λ k, bool_decide (k ∈ columns df)) subset
  then Return (dropped subset df)
  else Raise (dropna_error subset (columns df)).
Proof. done. Qed.

Lemma subset_present subset df :
  forallb (λ k, bool_decide (k ∈ columns df)) subset = true
  ↔ ∀ k, k ∈ subset → k ∈ columns df.
Proof.
  rewrite forallb_forall. split.
  - intros Hp k Hk. apply list_elem_of_In in Hk.
    by apply Hp, bool_decide_eq_true_1 in Hk.
  - intros Hp k Hk. apply list_elem_of_In in Hk.
    by apply bool_decide_eq_true_2, Hp.
Qed.

Lemma dropna_Return subset df g :
  dropna subset df = Return g
  ↔ (∀ k, k ∈ subset → k ∈ columns df) ∧ g = dropped subset df.
Proof.
  rewrite dropna_eq, <-subset_present.
  destruct (forallb _ subset); split; try done.
  - by intros [= <-].
  - by intros [_ ->].
  - by intros [? _].
Qed.

Lemma columns_dropped subset df : columns (dropped subset df) = columns df.
Proof.
  unfold columns, dropped. simpl. rewrite <-list_fmap_compose.
  by apply list_fmap_ext.
Qed.

Lemma labelled_fmap_snd (f : Series num → Series num) k df n :
  labelled k (mkDataFrame n ((λ c : str * Series num, (c.1, f c.2)) <$> df_cols df))
  = f <$> labelled k df.
Proof.
  unfold labelled. simpl. induction (df_cols df) as [|c l IH]; [done|].
  rewrite fmap_cons, !filter_cons. simpl.
  destruct (decide (c.1 = k)); [|done]. rewrite !fmap_cons. by rewrite IH.
Qed.

Lemma labelled_dropped k subset df :
  labelled k (dropped subset df)
  = compress (complete_rows (df_len df) (k ← subset; labelled k df))
      <$> labelled k df.
Proof. apply labelled_fmap_snd. Qed.

Lemma wf_labelled df k s : wf df → s ∈ labelled k df → length s = df_len df.
Proof.
  intros Hwf Hs%elem_of_labelled.
  by apply (proj1 (Forall_forall _ _) Hwf) in Hs.
Qed.

Lemma length_mask subset df :
  wf df →
  length (complete_rows (df_len df) (k ← subset; labelled k df)) = df_len df.
Proof.
  intros Hwf. apply length_complete_rows, Forall_forall. intros s Hs.
  apply list_elem_of_bind in Hs as (k & Hs & _). by eapply wf_labelled.
Qed.

Lemma wf_dropped subset df : wf df → wf (dropped subset df).
Proof.
  intros Hwf. unfold wf, dropped. simpl. apply Forall_fmap.
  eapply Forall_impl; [exact Hwf|]. intros c Hc. simpl.
  apply length_compress. by rewrite length_seq.
Qed.

(** Which rows the mask keeps. *)
Lemma lookup_mask subset df i :
  complete_rows (df_len df) (k ← subset; labelled k df) !! i = Some true
  ↔ i < df_len df ∧ complete_row df subset i.
Proof.
  rewrite lookup_complete_rows, Forall_forall. unfold complete_row.
  split; intros [Hi Hall]; (split; [done|]).
  - intros k s Hk Hs. apply Hall, list_elem_of_bind. eauto.
  - intros s (k & Hs & Hk)%list_elem_of_bind. eauto.
Qed.

(** The columns of [subset] have no missing cell left. *)
Lemma dropped_complete subset df k s c :
  k ∈ subset → s ∈ labelled k (dropped subset df) → c ∈ s → isna c = false.
Proof.
  intros Hk Hs Hc. rewrite labelled_dropped in Hs.
  apply list_elem_of_fmap in Hs as (s0 & -> & Hs0).
  apply elem_of_compress in Hc as (i & Hi & Hc).
  apply lookup_mask in Hi as [_ Hrow].
  destruct (Hrow k s0 Hk Hs0) as (c' & Hc' & Hna). congruence.
Qed.



End DropnaLemmas.

(** ** The frames of the script *)

Section DashboardClaims.
Context {num : Type} `{!Numeric num} `{!PandasErrors} `{!Rendering num}.
Implicit Types (df g : DataFrame num) (subset : list str) (s : Series num).
Implicit Types (dtypes : Dtypes).
Implicit Types (w : World num).

Lemma dropped_all_complete subset df :
  wf df → (∀ i, i < df_len df → complete_row df subset i) →
  dropped subset df = df.
Proof.
  intros Hwf Hall. pose proof (length_mask subset df Hwf) as Hlen.
  assert (Forall (λ b, b = true)
            (complete_rows (df_len df) (k ← subset; labelled k df))) as Htrue.
  { apply Forall_lookup. intros i b Hi.
    assert (i < df_len df) as Hlt.
    { rewrite <-Hlen. by eapply lookup_lt_Some. }
    rewrite (proj2 (lookup_mask subset df i) (conj Hlt (Hall i Hlt))) in Hi.
    by injection Hi. }
  apply df_eq.
  - unfold dropped. simpl. rewrite compress_all; [apply length_seq|done|].
    by rewrite length_seq.
  - unfold dropped. simpl. rewrite <-(list_fmap_id (df_cols df)) at 2.
    apply Forall_fmap_ext, Forall_forall. intros [k s] Hc. simpl. f_equal.
    apply compress_all; [done|].
    apply (proj1 (Forall_forall _ _) Hwf) in Hc. simpl in Hc. congruence.
Qed.

(** [dropna]: the frame it returns has the labels of the frame it was given
    and one cell per row in every column; no column of the subset has a
    missing cell left; a frame with no missing cell in those columns is
    returned as it is; and a second [dropna] with the same subset changes
    nothing. *)
Theorem dropna_keeps_complete_rows subset df g :
  wf df → dropna subset df = Return g →
  columns g = columns df ∧ wf g ∧ df_len g ≤ df_len df
  ∧ (∀ k s c, k ∈ subset → s ∈ labelled k g → c ∈ s → isna c = false)
  ∧ ((∀ i, i < df_len df → complete_row df subset i) → g = df)
  ∧ dropna subset g = Return g.
Proof.
  intros Hwf [Hpresent ->]%dropna_Return.
  pose proof (wf_dropped subset df Hwf) as Hwfg.
  split_and!.
  - apply columns_dropped.
  - done.
  - unfold dropped. simpl. etrans; [apply length_compress_le|].
    by rewrite length_seq.
  - intros k s c. apply dropped_complete.
  - by apply dropped_all_complete.
  - apply dropna_Return. split.
    + intros k Hk. rewrite columns_dropped. by apply Hpresent.
    + symmetry. apply dropped_all_complete; [done|].
      intros i Hi k s Hk Hs.
      pose proof (wf_labelled _ _ _ Hwfg Hs) as Hlen.
      destruct (lookup_lt_is_Some_2 s i) as [c Hc]; [lia|].
      exists c. split; [done|]. eapply dropped_complete; [done..|].
      by eapply list_elem_of_lookup_2.
Qed.


Lemma cols_nonempty df k : k ∈ columns df → df_cols df ≠ [].
Proof. unfold columns. by destruct (df_cols df); [intros ?%elem_of_nil|]. Qed.

Lemma df_empty_rows df k :
  k ∈ columns df → df_empty df = bool_decide (df_len df = 0).
Proof.
  intros Hk%cols_nonempty. unfold df_empty.
  by rewrite (bool_decide_eq_false_2 (df_cols df = [])), orb_false_r.
Qed.

(** Lines 76-80: whatever message [load_data] returns is shown and the
    script stops. *)
Theorem startup_halts_on_error w msg :
  outcome (load_data w DATA_PATH) = Return (None, Some msg) →
  startup w = Return (Halt msg).
Proof.
  intros Hload. unfold startup. rewrite Hload.
  assert (msg ≠ []) as Hmsg.
  { revert Hload. unfold load_data.
    destruct (os_path_exists w DATA_PATH); simpl.
    - destruct (pd_read_csv w DATA_PATH) as [df|e]; simpl.
      + by destruct (clean df).
      + by intros [= <-].
    - by intros [= <-]. }
  by destruct msg.
Qed.

(** Lines 76-84: after a load that returned a frame the script goes on
    with it when it has a row, and stops with "Dataset is empty or could
    not be loaded." when it has none: a returned frame always has columns. *)
Theorem startup_after_load w df :
  outcome (load_data w DATA_PATH) = Return (Some df, None) →
  startup w =
  Return (if bool_decide (df_len df = 0)
          then Halt (py "Dataset is empty or could not be loaded.")
          else Proceed df).
Proof.
  intros Hload. unfold startup. rewrite Hload. simpl.
  apply load_data_Some in Hload as (df0 & _ & _ & Hclean & _).
  rewrite (df_empty_rows df (py "Edu_gap")).
  - by case_bool_decide.
  - apply (elem_of_columns_clean _ _ _ Hclean). right. by left.
Qed.

(** *** The Distribution tab *)

(** With a label of [cols] in the frame, the summary has a row and a
    column. *)
Lemma summary_not_empty df dtypes cols k :
  k ∈ cols → k ∈ columns df →
  ∃ t, safe_numeric_summary df dtypes cols = Return t
       ∧ tbl_index t ≠ [] ∧ tbl_columns t ≠ [].
Proof.
  intros Hk Hin. rewrite safe_numeric_summary_returns. eexists.
  split; [done|].
  assert (k ∈ filter (λ c, c ∈ columns df) cols) as Hf.
  { by apply list_elem_of_filter. }
  assert (selected df dtypes cols ≠ []) as Hsel.
  { unfold selected. intros Hnil.
    assert (Forall (λ k, k ∈ columns df) (filter (λ c, c ∈ columns df) cols))
      as Hpresent.
    { apply Forall_forall. by intros ? [? _]%list_elem_of_filter. }
    destruct (filter (λ c, c ∈ columns df) cols) as [|k0 l];
      [by apply elem_of_nil in Hf|].
    apply Forall_cons in Hpresent as [Hk0 _]. simpl in Hnil.
    destruct (typed_labelled k0 df dtypes) eqn:Hlab;
      [by apply typed_labelled_nil in Hlab|done]. }
  destruct (filter (λ c, c ∈ columns df) cols) as [|k0 l];
    [by apply elem_of_nil in Hf|].
  destruct (filter _ (selected df dtypes cols)) as [|n0 ns]; simpl.
  - split; [|done]. by destruct (selected df dtypes cols).
  - done.
Qed.

(** What lines 113-169 have done when they return. *)
Lemma distribution_tab_Return df dtypes els :
  distribution_tab df dtypes = Return els →
  TARGET_COL ∈ columns df
  ∧ kpi_metrics (dropped [TARGET_COL] df) = Return ()
  ∧ plotly_chart (PxHistogram (dropped [TARGET_COL] df) TARGET_COL) = Return ()
  ∧ ∃ desc,
      safe_numeric_summary df dtypes summary_cols = Return desc
      ∧ els = [StPlotlyChart (PxHistogram (dropped [TARGET_COL] df) TARGET_COL);
               if negb (table_empty desc) then StDataframe desc
               else StInfo (py "No numeric columns available for summary.")]
      ∧ (table_empty desc = false → st_dataframe desc = Return ()).
Proof.
  unfold distribution_tab, kpi_frame.
  intros (g & [Hpresent ->]%dropna_Return & Htab)%bind_Return.
  assert (TARGET_COL ∈ columns df) as Ht by (apply Hpresent; by left).
  apply bind_Return in Htab as ([] & Hkpi & Hview).
  unfold distribution_view in Hview.
  rewrite columns_dropped, bool_decide_eq_true_2 in Hview by done.
  apply bind_Return in Hview as ([] & Hplot & Hview).
  apply bind_Return in Hview as (desc & Hdesc & Hview).
  split_and!; [done..|]. exists desc. split; [done|].
  destruct (table_empty desc); simpl in *.
  - by injection Hview as <-.
  - apply bind_Return in Hview as ([] & Hshow & [= <-]). by split.
Qed.

(** Lines 113 and 140-169, for every frame, whatever its dtypes and
    whatever the metrics and the drawing do.  On a frame without the
    column GII VALUE line 113 raises the [KeyError] of [dropna], so the tab
    is not reached.  When lines 113-169 return, the frame has the column,
    and what the Distribution tab has put on the page is the histogram of
    the KPI frame followed by the summary table or its placeholder: never
    the warning of line 169. *)
Theorem target_column_gate df dtypes :
  (TARGET_COL ∉ columns df →
   distribution_tab df dtypes = Raise (dropna_error [TARGET_COL] (columns df)))
  ∧ ∀ els,
      distribution_tab df dtypes = Return els →
      TARGET_COL ∈ columns df
      ∧ (∃ g desc,
           kpi_frame df = Return g ∧ columns g = columns df
           ∧ safe_numeric_summary df dtypes summary_cols = Return desc
           ∧ els = [StPlotlyChart (PxHistogram g TARGET_COL);
                    if negb (table_empty desc) then StDataframe desc
                    else StInfo (py "No numeric columns available for summary.")])
      ∧ StWarning (py "GII VALUE column is missing; cannot show distribution.")
          ∉ els.
Proof.
  split.
  - intros Ht. unfold distribution_tab, kpi_frame. rewrite dropna_eq. simpl.
    by rewrite bool_decide_eq_false_2.
  - intros els (Ht & _ & _ & desc & Hdesc & -> & _)%distribution_tab_Return.
    split; [done|]. split.
    + exists (dropped [TARGET_COL] df), desc. split_and!; [|apply columns_dropped|done..].
      apply dropna_Return. split; [|done].
      by intros k ->%list_elem_of_singleton.
    + intros [Hw|[Hw|Hw%elem_of_nil]%elem_of_cons]%elem_of_cons; [done| |done].
      by destruct (table_empty desc).
Qed.

(** Lines 113-167 after a load: the frame [load_data] returns always has
    the columns [Edu_gap] and [Labour_gap], so the summary of line 163 has
    a row and a column whatever the dtypes.  When lines 113-169 return on
    it, what the Distribution tab has put on the page is the histogram of
    the KPI frame and the summary table; "No numeric columns available for
    summary." is never shown. *)
Theorem summary_after_load w path df dtypes els :
  outcome (load_data w path) = Return (Some df, None) →
  distribution_tab df dtypes = Return els →
  ∃ g desc,
    kpi_frame df = Return g
    ∧ safe_numeric_summary df dtypes summary_cols = Return desc
    ∧ tbl_index desc ≠ [] ∧ tbl_columns desc ≠ []
    ∧ els = [StPlotlyChart (PxHistogram g TARGET_COL); StDataframe desc]
    ∧ StInfo (py "No numeric columns available for summary.") ∉ els.
Proof.
  intros (df0 & _ & _ & Hclean & _)%load_data_Some
    (Ht & _ & _ & desc & Hdesc & -> & _)%distribution_tab_Return.
  assert (py "Edu_gap" ∈ columns df) as Hedu.
  { apply (elem_of_columns_clean _ _ _ Hclean). right. by left. }
  destruct (summary_not_empty df dtypes summary_cols (py "Edu_gap"))
    as (desc' & Hdesc' & Hidx & Hcol); [by_evaluation|done|].
  assert (desc' = desc) as -> by congruence.
  assert (table_empty desc = false) as Hne.
  { unfold table_empty. by rewrite !bool_decide_eq_false_2. }
  exists (dropped [TARGET_COL] df), desc. rewrite Hne. simpl.
  split_and!; [|done..|].
  - apply dropna_Return. split; [|done]. by intros k ->%list_elem_of_singleton.
  - by intros [Hw|[Hw|Hw%elem_of_nil]%elem_of_cons]%elem_of_cons.
Qed.

(** *** The Relationships tab *)

(** Lines 202-214 after a load: [Edu_gap] and [Labour_gap] are always among
    the options of the X-axis selector, so "No numeric driver columns
    available for relationship plots." is never shown. *)
Theorem numeric_options_after_load w path df :
  outcome (load_data w path) = Return (Some df, None) →
  py "Edu_gap" ∈ numeric_options df ∧ py "Labour_gap" ∈ numeric_options df
  ∧ ∀ x_var color_by els,
      relationships_view df x_var color_by = Return els →
      StInfo (py "No numeric driver columns available for relationship plots.")
        ∉ els.
Proof.
  intros (df0 & _ & _ & Hclean & _)%load_data_Some.
  assert (py "Edu_gap" ∈ numeric_options df) as Hedu.
  { apply list_elem_of_filter. split; [|by_evaluation].
    apply (elem_of_columns_clean _ _ _ Hclean). right. by left. }
  assert (py "Labour_gap" ∈ numeric_options df) as Hlab.
  { apply list_elem_of_filter. split; [|by_evaluation].
    apply (elem_of_columns_clean _ _ _ Hclean). right. by right; left. }
  split_and!; [done..|]. intros x_var color_by els. unfold relationships_view.
  destruct (numeric_options df) as [|o os]; [by apply elem_of_nil in Hedu|].
  destruct (dropna _ df) as [g|e]; simpl; [|done].
  destruct (df_empty g); intros [= <-] Hin%list_elem_of_singleton;
    [by vm_compute in Hin|done].
Qed.

(** Lines 216-245, on a frame with the column GII VALUE and for an X-axis
    variable among the options: whatever the colour selection, [dropna]
    does not raise; the tab shows "No complete rows available for the
    selected variables." when no row is left and the scatter plot
    otherwise; the frame of the plot has the labels of the loaded frame and
    no missing cell in GII VALUE, in the X-axis column, or in the colour
    column when the selection is not "None"; the colour handed to Plotly is
    a column of the frame or nothing. *)
Theorem relationships_view_scatter df x_var color_by :
  wf df → TARGET_COL ∈ columns df → x_var ∈ numeric_options df →
  ∃ g,
    dropna (subset_cols df x_var color_by) df = Return g
    ∧ relationships_view df x_var color_by =
      Return
        (if bool_decide (df_len g = 0)
         then [StInfo (py "No complete rows available for the selected variables.")]
         else [StPlotlyChart
                 (PxScatter g x_var TARGET_COL
                    (if bool_decide (color_by ∈ columns df)
                     then Some color_by else None)
                    (if bool_decide (py "Country" ∈ columns df)
                     then Some (py "Country") else None))])
    ∧ columns g = columns df ∧ wf g
    ∧ (∀ k s c, k ∈ [TARGET_COL; x_var] → s ∈ labelled k g → c ∈ s →
                isna c = false)
    ∧ (color_by ≠ py "None" →
       ∀ s c, s ∈ labelled color_by g → c ∈ s → isna c = false).
Proof.
  intros Hwf Ht Hx.
  assert (x_var ∈ columns df) as Hxin.
  { by apply list_elem_of_filter in Hx as [? _]. }
  assert (∀ k, k ∈ subset_cols df x_var color_by → k ∈ columns df) as Hpresent.
  { intros k. unfold subset_cols. rewrite elem_of_app, !elem_of_cons.
    intros [[->|[->|?%elem_of_nil]]|Hc]; try done.
    destruct (negb _); simpl in Hc; [|by apply elem_of_nil in Hc].
    case_bool_decide; [|by apply elem_of_nil in Hc].
    by apply list_elem_of_singleton in Hc as ->. }
  exists (dropped (subset_cols df x_var color_by) df).
  assert (dropna (subset_cols df x_var color_by) df
          = Return (dropped (subset_cols df x_var color_by) df)) as Hdrop.
  { by apply dropna_Return. }
  split; [done|]. split_and!.
  - unfold relationships_view. rewrite Hdrop.
    destruct (numeric_options df) as [|o os]; [by apply elem_of_nil in Hx|].
    change (Return ?d ≫= ?k) with (k d). cbv beta.
    rewrite (df_empty_rows _ TARGET_COL), !columns_dropped
      by by rewrite columns_dropped.
    by case_bool_decide.
  - apply columns_dropped.
  - by apply wf_dropped.
  - intros k s c Hk. apply dropped_complete. unfold subset_cols.
    apply elem_of_app. by left.
  - intros Hnone s c Hs. eapply dropped_complete; [|done].
    unfold subset_cols. apply elem_of_app. right.
    rewrite (bool_decide_eq_false_2 (color_by = py "None")) by done. simpl.
    rewrite bool_decide_eq_true_2; [by left|].
    rewrite <-(columns_dropped (subset_cols df x_var color_by) df).
    destruct (decide (color_by ∈ columns
                        (dropped (subset_cols df x_var color_by) df)))
      as [|Hnil%labelled_nil]; [done|].
    rewrite Hnil in Hs. by apply elem_of_nil in Hs.
Qed.

(** *** The tab by human development group *)

Lemma filter_each_Return {A} (test : A → result bool) (f : A → bool)
    (l : list A) :
  (∀ x, x ∈ l → test x = Return (f x)) →
  filter_each test l = Return (filter (λ x, f x) l).
Proof.
  induction l as [|x l IH]; intros Hall; [done|].
  simpl. rewrite Hall by left. simpl.
  rewrite IH by (intros y Hy; apply Hall; by right). simpl.
  rewrite filter_cons. by destruct (f x).
Qed.

Lemma in_unique_OneSeries s o b :
  in_unique (OneSeries s) o = Return b → (b ↔ Str o ∈ s).
Proof.
  intros [= <-]. induction s as [|c s IH]; simpl.
  - split; [done|by intros ?%elem_of_nil].
  - rewrite orb_True, IH, elem_of_cons. split; (intros [Hc|Hs]; [left|by right]).
    + destruct c; try done. apply bool_decide_unpack in Hc. by subst.
    + subst. by apply bool_decide_pack.
Qed.

(** Lines 176-192, on a frame with one column HUMAN DEVELOPMENT and the
    column GII VALUE: [dropna] does not raise; the tab shows "No complete
    data for HUMAN DEVELOPMENT and GII VALUE." when no row is left, and the
    box plot of the rows left otherwise.  The category order handed to
    Plotly is taken from VERY HIGH, HIGH, MEDIUM, LOW in that order, and
    has a category exactly when it is the HUMAN DEVELOPMENT value of a row
    of the loaded frame that misses neither HUMAN DEVELOPMENT nor
    GII VALUE. *)
Theorem hd_view_order df h :
  wf df → labelled (py "HUMAN DEVELOPMENT") df = [h] →
  TARGET_COL ∈ columns df →
  ∃ g order,
    dropna [py "HUMAN DEVELOPMENT"; TARGET_COL] df = Return g
    ∧ hd_view df =
      Return
        (if bool_decide (df_len g = 0)
         then [StInfo (py "No complete data for HUMAN DEVELOPMENT and GII VALUE.")]
         else [StPlotlyChart
                 (PxBox g (py "HUMAN DEVELOPMENT") TARGET_COL order)])
    ∧ order `sublist_of` py <$> ["VERY HIGH"; "HIGH"; "MEDIUM"; "LOW"]
    ∧ ∀ o, o ∈ order ↔
        o ∈ py <$> ["VERY HIGH"; "HIGH"; "MEDIUM"; "LOW"]
        ∧ ∃ i, h !! i = Some (Str o)
               ∧ complete_row df [py "HUMAN DEVELOPMENT"; TARGET_COL] i.
Proof.
  intros Hwf Hh Ht.
  assert (py "HUMAN DEVELOPMENT" ∈ columns df) as Hhd.
  { destruct (decide (py "HUMAN DEVELOPMENT" ∈ columns df))
      as [|Hnil%labelled_nil]; [done|]. by rewrite Hh in Hnil. }
  set (subset := [py "HUMAN DEVELOPMENT"; TARGET_COL]).
  set (m := complete_rows (df_len df) (k ← subset; labelled k df)).
  assert (labelled (py "HUMAN DEVELOPMENT") (dropped subset df)
          = [compress m h]) as Hg.
  { by rewrite labelled_dropped, Hh. }
  assert (dropna subset df = Return (dropped subset df)) as Hdrop.
  { apply dropna_Return. split; [|done].
    by intros k [->|[->|?%elem_of_nil]%elem_of_cons]%elem_of_cons. }
  exists (dropped subset df),
    (filter (λ o, existsb (λ c : cell num, match c with
                                           | Str t => bool_decide (t = o)
                                           | _ => false
                                           end) (compress m h))
       (py <$> ["VERY HIGH"; "HIGH"; "MEDIUM"; "LOW"])).
  split; [done|]. split_and!.
  - unfold hd_view. fold subset. rewrite !bool_decide_eq_true_2 by done.
    rewrite Hdrop. change (Return ?d ≫= ?k) with (k d). cbv beta.
    rewrite (df_empty_rows _ TARGET_COL) by by rewrite columns_dropped.
    case_bool_decide; [done|].
    rewrite (filter_each_Return _
               (λ o, existsb (λ c : cell num, match c with
                                              | Str t => bool_decide (t = o)
                                              | _ => false
                                              end) (compress m h))); [done|].
    intros o _. unfold getitem. by rewrite Hg.
  - apply sublist_filter.
  - intros o. rewrite list_elem_of_filter.
    rewrite (in_unique_OneSeries (compress m h) o _ eq_refl).
    rewrite elem_of_compress. split.
    + intros [(i & Hm & Hi) Hin]. split; [done|]. exists i. split; [done|].
      by apply lookup_mask in Hm as [_ ?].
    + intros [Hin (i & Hi & Hrow)]. split; [|done]. exists i. split; [|done].
      apply lookup_mask. split; [|done].
      rewrite <-(wf_labelled df (py "HUMAN DEVELOPMENT") h Hwf).
      * by eapply lookup_lt_Some.
      * rewrite Hh. by left.
Qed.

(** Lines 177-182, on a frame in which two columns carry the label
    HUMAN DEVELOPMENT (a header [HUMAN DEVELOPMENT, HUMAN DEVELOPMENT ] is
    read as two labels and trimmed to one by line 47, and [load_data]
    returns the frame): as soon as a row is left after [dropna],
    [df_box["HUMAN DEVELOPMENT"]] is a frame, which has no [unique], and
    the [AttributeError] ends the script. *)
Theorem hd_view_repeated_label df g h1 h2 hs :
  labelled (py "HUMAN DEVELOPMENT") df = h1 :: h2 :: hs →
  dropna [py "HUMAN DEVELOPMENT"; TARGET_COL] df = Return g →
  df_empty g = false →
  hd_view df =
  Raise (Exception "AttributeError"
           (py "'DataFrame' object has no attribute 'unique'")).
Proof.
  intros Hh Hdrop Hrows. unfold hd_view. rewrite Hdrop.
  apply dropna_Return in Hdrop as [Hpresent ->].
  rewrite !bool_decide_eq_true_2
    by (apply Hpresent; rewrite !elem_of_cons; auto).
  change (Return ?d ≫= ?k) with (k d). cbv beta. rewrite Hrows.
  unfold getitem. cbn [filter_each fmap list_fmap].
  by rewrite labelled_dropped, Hh.
Qed.

End DashboardClaims.

(* ================================================================== *)
(** * The properties on the sample files *)

(** C1: on a file whose header gives two columns the label [GII VALUE] once
    the labels are trimmed, [load_data] returns neither a table nor a
    message: the [TypeError] of [pd.to_numeric] propagates to the caller. *)
Theorem load_data_raises_on_repeated_label :
  outcome (load_data (one_file repeated_label) (py "gii.csv"))
  = Raise (TypeError "arg must be a list, tuple, 1-d array, or Series").
Proof. by vm_compute. Qed.

Lemma load_data_ngoza :
  outcome (load_data (one_file ngoza) (py "gii.csv"))
  = Return (Some ngoza_cleaned, None).
Proof. by vm_compute. Qed.

Lemma load_data_stale_gap :
  outcome (load_data (one_file stale_gap) (py "gii.csv"))
  = Return (Some stale_gap_cleaned, None).
Proof. by vm_compute. Qed.

(** C7, on a path that names no file. *)
Lemma load_data_not_found_witness :
  load_data (one_file ngoza) (py "nowhere.csv") =
  mkRun [OsPathExists (py "nowhere.csv")]
    (Return (None, Some (py "File not found at: " ++ py "nowhere.csv"))).
Proof. apply load_data_not_found. reflexivity. Defined.

(** C2 as stated fails: the file of [stale_gap] has ".." in row 0 of its
    column [Edu_gap], and the returned frame has 15 there. *)
Lemma placeholder_in_gap_column_not_missing :
  ¬ ∀ (w : World Z) path df df' j name col i,
      pd_read_csv w path = Return df →
      outcome (load_data w path) = Return (Some df', None) →
      df_cols df !! j = Some (name, col) →
      col !! i = Some (Str (py "..")) →
      ∃ col', df_cols df' !! j = Some (normalize_name name, col')
              ∧ col' !! i = Some NaN.
Proof.
  intros Hall.
  destruct (Hall (one_file stale_gap) (py "gii.csv") stale_gap stale_gap_cleaned
              0 (py "Edu_gap") [Str (py "..")] 0)
    as (col' & Hj & Hi); [done|apply load_data_stale_gap|done..|].
  vm_compute in Hj. by simplify_eq.
Qed.

(** C2 (amended), on the column [F_secondary_educ] of the sample file. *)
Lemma placeholder_reads_missing_witness :
  (∃ col', df_cols ngoza_cleaned !! 1
           = Some (normalize_name (py "F_secondary_educ"), col')
     ∧ ∀ i, ([Str (py "40"); Str (py "..")] : Series Z) !! i
            = Some (Str (py ".."))
            → col' !! i = Some NaN)
  ∧ ∀ v : cell Z, v ≠ Str (py "..") → replace_cell (py "..") NaN v = v.
Proof.
  apply (placeholder_reads_missing (one_file ngoza) (py "gii.csv") ngoza).
  - reflexivity.
  - apply load_data_ngoza.
  - reflexivity.
  - by_evaluation.
Defined.

(** C3, on the sample file. *)
Lemma numeric_columns_coerced_witness :
  (∀ df', outcome (load_data (one_file ngoza) (py "gii.csv"))
          = Return (Some df', None) →
     (∀ k s, k ∈ NUMERIC_COLS → s ∈ labelled k df' →
             Forall (λ v, isna v = true ∨ is_number v = true) s)
     ∧ (∀ j name col i t,
          df_cols ngoza !! j = Some (name, col) →
          normalize_name name ∈ NUMERIC_COLS →
          col !! i = Some (Str t) → parse_number t = None →
          ∃ col', df_cols df' !! j = Some (normalize_name name, col')
                  ∧ col' !! i = Some NaN))
  ∧ (numeric_labels_unique ngoza →
     (∀ gap m f, (gap, m, f) ∈ GAPS → ¬ boolean_pair m f ngoza) →
     ∃ df', outcome (load_data (one_file ngoza) (py "gii.csv"))
            = Return (Some df', None))
  ∧ (∀ col (d : DataFrame Z), col ∈ NUMERIC_COLS → col ∉ columns d →
              convert_numeric col d = Return d).
Proof.
  apply (numeric_columns_coerced (one_file ngoza) (py "gii.csv") ngoza);
    reflexivity.
Defined.

(** C4, on [Edu_gap] of the sample file. *)
Lemma gap_is_difference_witness :
  ∃ x y, labelled (py "M_secondary_educ") ngoza_cleaned = [x]
    ∧ labelled (py "F_secondary_educ") ngoza_cleaned = [y]
    ∧ py "Edu_gap" ∈ columns ngoza_cleaned ∧
    ∀ s, s ∈ labelled (py "Edu_gap") ngoza_cleaned →
      length s = min (length x) (length y) ∧
      ∀ i a b, x !! i = Some a → y !! i = Some b →
        (isna a = true ∨ isna b = true → s !! i = Some NaN) ∧
        (isna a = false → isna b = false →
         ∃ p q, as_number a = Some p ∧ as_number b = Some q
                ∧ s !! i = Some (of_option (num_sub p q))).
Proof.
  apply (gap_is_difference (one_file ngoza) (py "gii.csv") ngoza).
  - reflexivity.
  - apply load_data_ngoza.
  - by left.
  - by_evaluation.
  - by_evaluation.
Defined.

(** C5, on [Labour_gap] of the sample file, which has neither of its
    sources. *)
Lemma gap_missing_without_sources_witness :
  df_len ngoza_cleaned = df_len ngoza
  ∧ py "Labour_gap" ∈ columns ngoza_cleaned
  ∧ ∀ s, s ∈ labelled (py "Labour_gap") ngoza_cleaned
         → s = replicate (df_len ngoza_cleaned) NaN.
Proof.
  apply (gap_missing_without_sources (one_file ngoza) (py "gii.csv") ngoza
           ngoza_cleaned (py "Labour_gap") (py "M_Labour_force")
           (py "F_Labour_force")).
  - reflexivity.
  - apply load_data_ngoza.
  - by right; left.
  - intros [Hm _]. revert Hm. by_evaluation.
Defined.

(** C9, on the sample file. *)
Lemma rows_preserved_witness :
  df_len ngoza_cleaned = df_len ngoza ∧ wf ngoza_cleaned ∧
  ∀ j name col, df_cols ngoza !! j = Some (name, col) →
    ∃ col', df_cols ngoza_cleaned !! j = Some (normalize_name name, col')
      ∧ length col' = length col
      ∧ (normalize_name name ∉ GAP_COLS →
         ∀ i v, col !! i = Some v →
           col' !! i = Some (replace_cell (py "..") NaN v)
           ∨ col' !! i = Some (to_numeric_cell (replace_cell (py "..") NaN v))).
Proof.
  apply (rows_preserved (one_file ngoza) (py "gii.csv") ngoza).
  - reflexivity.
  - apply load_data_ngoza.
  - unfold wf. by repeat constructor.
Defined.

(** C10, on the column [Country] of the sample file. *)
Lemma other_columns_unchanged_witness :
  ∃ col', df_cols ngoza_cleaned !! 0 = Some (normalize_name (py "Country"), col')
    ∧ length col' = length ([Str (py "Ngoza"); Str (py "..")] : Series Z)
    ∧ ∀ i v, ([Str (py "Ngoza"); Str (py "..")] : Series Z) !! i = Some v →
        (v = Str (py "..") → col' !! i = Some NaN)
        ∧ (v ≠ Str (py "..") → col' !! i = Some v).
Proof.
  apply (other_columns_unchanged (one_file ngoza) (py "gii.csv") ngoza).
  - reflexivity.
  - apply load_data_ngoza.
  - reflexivity.
  - by_evaluation.
  - by_evaluation.
Defined.

(** C8 as stated fails: of the two columns selected from the sample frame,
    [Country] holds text, is of dtype object, and gets no row. *)
Lemma text_column_not_summarised :
  ¬ ∀ (df : DataFrame Z) (dtypes : Dtypes) cols,
      filter (λ c, c ∈ columns df) cols ≠ [] →
      ∃ t, safe_numeric_summary df dtypes cols = Return t
           ∧ (∀ k, k ∈ filter (λ c, c ∈ columns df) cols → k ∈ tbl_index t)
           ∧ tbl_columns t = numeric_stats.
Proof.
  intros Hall.
  destruct (Hall ngoza_cleaned (text_then_numbers 1)
              [py "Country"; py "GII VALUE"])
    as (t & Ht & Hrows & _); [by vm_compute|].
  vm_compute in Ht. injection Ht as <-.
  specialize (Hrows (py "Country")). simpl in Hrows.
  assert (py "Country" ∈ [py "GII VALUE"]) as Hin.
  { apply Hrows. by_evaluation. }
  by apply list_elem_of_singleton in Hin.
Qed.

(** Two columns with the same cells and different dtypes: the summary has
    a row for [Edu_gap] and none for [Country]. *)
Lemma same_cells_different_dtypes :
  safe_numeric_summary unnamed_countries (text_then_numbers 1)
    [py "Country"; py "GII VALUE"; py "Edu_gap"]
  = Return (summary_of numeric_stats [
      mkColumn (py "GII VALUE") true [Num 1; Num 2];
      mkColumn (py "Edu_gap") true [NaN; NaN]
    ]%Z).
Proof. by vm_compute. Qed.

(** ** The dashboard script on the sample files *)

Lemma load_data_groups :
  outcome (load_data (dataset groups) DATA_PATH)
  = Return (Some groups_cleaned, None).
Proof. by vm_compute. Qed.

Lemma wf_groups_cleaned : wf groups_cleaned.
Proof. unfold wf. by repeat constructor. Qed.

(** [dropna] on the sample frame, for the two columns of the box plot. *)
Lemma dropna_keeps_complete_rows_witness :
  columns groups_complete = columns groups_cleaned ∧ wf groups_complete
  ∧ df_len groups_complete ≤ df_len groups_cleaned
  ∧ (∀ k s c, k ∈ [py "HUMAN DEVELOPMENT"; TARGET_COL] →
              s ∈ labelled k groups_complete → c ∈ s → isna c = false)
  ∧ ((∀ i, i < df_len groups_cleaned →
           complete_row groups_cleaned [py "HUMAN DEVELOPMENT"; TARGET_COL] i) →
     groups_complete = groups_cleaned)
  ∧ dropna [py "HUMAN DEVELOPMENT"; TARGET_COL] groups_complete
    = Return groups_complete.
Proof.
  apply (dropna_keeps_complete_rows [py "HUMAN DEVELOPMENT"; TARGET_COL]
           groups_cleaned groups_complete).
  - apply wf_groups_cleaned.
  - reflexivity.
Defined.


(** The script started where only [gii.csv] exists. *)
Lemma startup_halts_on_error_witness :
  startup (one_file ngoza)
  = Return (Halt (py "File not found at: " ++ DATA_PATH)).
Proof. apply startup_halts_on_error. reflexivity. Defined.

(** The script started on the sample file. *)
Lemma startup_after_load_witness :
  startup (dataset groups) =
  Return (if bool_decide (df_len groups_cleaned = 0)
          then Halt (py "Dataset is empty or could not be loaded.")
          else Proceed groups_cleaned).
Proof. apply startup_after_load. apply load_data_groups. Defined.

(** Lines 113-169 on the sample file. *)
Lemma distribution_tab_groups :
  distribution_tab groups_cleaned groups_dtypes = Return groups_distribution.
Proof. by vm_compute. Qed.

(** The Distribution tab on the sample file: the frame has the column, and
    the warning is not shown. *)
Lemma target_column_gate_witness :
  TARGET_COL ∈ columns groups_cleaned
  ∧ (∃ g desc,
       kpi_frame groups_cleaned = Return g
       ∧ columns g = columns groups_cleaned
       ∧ safe_numeric_summary groups_cleaned groups_dtypes summary_cols
         = Return desc
       ∧ groups_distribution
         = [StPlotlyChart (PxHistogram g TARGET_COL);
            if negb (table_empty desc) then StDataframe desc
            else StInfo (py "No numeric columns available for summary.")])
  ∧ StWarning (py "GII VALUE column is missing; cannot show distribution.")
      ∉ groups_distribution.
Proof.
  apply (proj2 (target_column_gate groups_cleaned groups_dtypes)).
  apply distribution_tab_groups.
Defined.

(** The Distribution tab on the sample file: the table is shown. *)
Lemma summary_after_load_witness :
  ∃ g desc,
    kpi_frame groups_cleaned = Return g
    ∧ safe_numeric_summary groups_cleaned groups_dtypes summary_cols
      = Return desc
    ∧ tbl_index desc ≠ [] ∧ tbl_columns desc ≠ []
    ∧ groups_distribution
      = [StPlotlyChart (PxHistogram g TARGET_COL); StDataframe desc]
    ∧ StInfo (py "No numeric columns available for summary.")
        ∉ groups_distribution.
Proof.
  apply (summary_after_load (dataset groups) DATA_PATH groups_cleaned
           groups_dtypes).
  - apply load_data_groups.
  - apply distribution_tab_groups.
Defined.

(** The X-axis options on the sample file. *)
Lemma numeric_options_after_load_witness :
  py "Edu_gap" ∈ numeric_options groups_cleaned
  ∧ py "Labour_gap" ∈ numeric_options groups_cleaned
  ∧ ∀ x_var color_by els,
      relationships_view groups_cleaned x_var color_by = Return els →
      StInfo (py "No numeric driver columns available for relationship plots.")
        ∉ els.
Proof.
  apply (numeric_options_after_load (dataset groups) DATA_PATH).
  apply load_data_groups.
Defined.

(** The Relationships tab on the sample file, maternal mortality coloured
    by group. *)
Lemma relationships_view_scatter_witness :
  ∃ g,
    dropna (subset_cols groups_cleaned (py "Maternal_mortality")
              (py "HUMAN DEVELOPMENT")) groups_cleaned = Return g
    ∧ relationships_view groups_cleaned (py "Maternal_mortality")
        (py "HUMAN DEVELOPMENT") =
      Return
        (if bool_decide (df_len g = 0)
         then [StInfo (py "No complete rows available for the selected variables.")]
         else [StPlotlyChart
                 (PxScatter g (py "Maternal_mortality") TARGET_COL
                    (if bool_decide (py "HUMAN DEVELOPMENT" ∈ columns groups_cleaned)
                     then Some (py "HUMAN DEVELOPMENT") else None)
                    (if bool_decide (py "Country" ∈ columns groups_cleaned)
                     then Some (py "Country") else None))])
    ∧ columns g = columns groups_cleaned ∧ wf g
    ∧ (∀ k s c, k ∈ [TARGET_COL; py "Maternal_mortality"] →
                s ∈ labelled k g → c ∈ s → isna c = false)
    ∧ (py "HUMAN DEVELOPMENT" ≠ py "None" →
       ∀ s c, s ∈ labelled (py "HUMAN DEVELOPMENT") g → c ∈ s →
              isna c = false).
Proof.
  apply (relationships_view_scatter groups_cleaned (py "Maternal_mortality")
           (py "HUMAN DEVELOPMENT")).
  - apply wf_groups_cleaned.
  - by_evaluation.
  - by_evaluation.
Defined.

(** The tab by human development group on the sample file: the order is
    VERY HIGH, MEDIUM. *)
Lemma hd_view_order_witness :
  ∃ g order,
    dropna [py "HUMAN DEVELOPMENT"; TARGET_COL] groups_cleaned = Return g
    ∧ hd_view groups_cleaned =
      Return
        (if bool_decide (df_len g = 0)
         then [StInfo (py "No complete data for HUMAN DEVELOPMENT and GII VALUE.")]
         else [StPlotlyChart
                 (PxBox g (py "HUMAN DEVELOPMENT") TARGET_COL order)])
    ∧ order `sublist_of` py <$> ["VERY HIGH"; "HIGH"; "MEDIUM"; "LOW"]
    ∧ ∀ o, o ∈ order ↔
        o ∈ py <$> ["VERY HIGH"; "HIGH"; "MEDIUM"; "LOW"]
        ∧ ∃ i, ([Str (py "VERY HIGH"); Str (py "LOW"); Str (py "MEDIUM"); NaN]
                  : Series Z) !! i = Some (Str o)
               ∧ complete_row groups_cleaned
                   [py "HUMAN DEVELOPMENT"; TARGET_COL] i.
Proof.
  apply (hd_view_order groups_cleaned).
  - apply wf_groups_cleaned.
  - reflexivity.
  - by_evaluation.
Defined.

Lemma hd_view_groups :
  hd_view groups_cleaned =
  Return [StPlotlyChart
            (PxBox groups_complete (py "HUMAN DEVELOPMENT") TARGET_COL
               [py "VERY HIGH"; py "MEDIUM"])].
Proof. by vm_compute. Qed.

Lemma load_data_repeated_group :
  outcome (load_data (dataset repeated_group_file) DATA_PATH)
  = Return (Some repeated_group, None).
Proof. by vm_compute. Qed.

(** The tab by human development group on the frame loaded from a file
    with the label twice. *)
Lemma hd_view_repeated_label_witness :
  hd_view repeated_group =
  Raise (Exception "AttributeError"
           (py "'DataFrame' object has no attribute 'unique'")).
Proof.
  apply (hd_view_repeated_label repeated_group repeated_group
           [Str (py "LOW")] [Str (py "LOW")] []); reflexivity.
Defined.
